(** * Movie Explorer: the query filter of [search_data]

    A shallow embedding of [search_data] (and of the part of [show_results]
    it reaches) from [GiancristofaroPaolaFinalProject.py], with the library
    calls it makes: [str.strip], [int], [float], pandas'
    [Series.str.contains] (a regular-expression search, since the call leaves
    [regex] at its default), boolean indexing of a [DataFrame] and
    ["\n".join].

    Conventions of the model.
    - A Python [str] is a [string]; its characters are the 8-bit [ascii]
      values read as the code points U+0000..U+00FF.
    - A [DataFrame] is the ordered list of its rows; the four text columns
      are object columns whose cells are a string or missing (NaN).  The
      types [read_csv] can give these columns instead, on which [.str]
      raises, are carried by [search_data_typed].
    - A Python [float] is an IEEE binary64 value, kept as the rational it
      denotes (or an infinity, or NaN).
    - Frames are objects in a store and variables hold references to them,
      so that rebinding [filtered_data] and aliasing [data] are explicit.
    - The widgets are outside the embedding: the six [Entry.get()] results
      are the fields of a [Query], and what the function shows (a message
      box or the result table) is its [outcome]. *)

From Stdlib Require Import List String Ascii Bool Arith ZArith QArith Lia.
Import ListNotations.

Local Open Scope string_scope.
Local Open Scope Z_scope.

(** ** Characters and strings *)

Module PyStr.

Definition code (c : ascii) : Z := Z.of_N (N_of_ascii c).

Definition chr (n : Z) : ascii := ascii_of_N (Z.to_N n).

Definition chars (s : string) : list ascii := list_ascii_of_string s.

Definition str (l : list ascii) : string := string_of_list_ascii l.

(** [str.isspace] on one character: the code points below 256 that Python
    counts as whitespace. *)
Definition is_space (c : ascii) : bool :=
  let n := code c in
  ((9 <=? n) && (n <=? 13)) || ((28 <=? n) && (n <=? 32))
  || (n =? 133) || (n =? 160).

Definition is_digit (c : ascii) : bool :=
  let n := code c in (48 <=? n) && (n <=? 57).

Definition digit_val (c : ascii) : Z := code c - 48.

(** Simple lower-casing of a code point below 256 (A-Z and the Latin-1
    capitals, the multiplication sign excepted). *)
Definition lower (c : ascii) : ascii :=
  let n := code c in
  if ((65 <=? n) && (n <=? 90))
     || ((192 <=? n) && (n <=? 222) && negb (n =? 215))
  then chr (n + 32) else c.

Fixpoint lstrip_chars (l : list ascii) : list ascii :=
  match l with
  | [] => []
  | c :: l' => if is_space c then lstrip_chars l' else l
  end.

Definition rstrip_chars (l : list ascii) : list ascii :=
  rev (lstrip_chars (rev l)).

Definition strip_chars (l : list ascii) : list ascii :=
  rstrip_chars (lstrip_chars l).

(** [s.strip()] *)
Definition strip (s : string) : string := str (strip_chars (chars s)).

(** Truth value of a string: non-empty. *)
Definition truthy (s : string) : bool :=
  match s with EmptyString => false | String _ _ => true end.

(** [any(l)] on a list of strings. *)
Definition any (l : list string) : bool := existsb truthy l.

(** [sep.join(l)] *)
Fixpoint join (sep : string) (l : list string) : string :=
  match l with
  | [] => ""
  | [x] => x
  | x :: l' => x ++ sep ++ join sep l'
  end.

Definition newline : string := String (chr 10) EmptyString.

End PyStr.

(** ** [int(s)] and [float(s)] *)

Module PyNum.
Import PyStr.

(** [digitpart ::= digit (["_"] digit)*], read left to right; [acc] is the
    value of the digits read so far and [n] their number.  The result is the
    value, the number of digits and the unread rest. *)
Fixpoint digitpart_tail (l : list ascii) (acc : Z) (n : nat)
  : Z * nat * list ascii :=
  match l with
  | c :: l' =>
      if is_digit c then digitpart_tail l' (10 * acc + digit_val c) (S n)
      else if (code c =? 95)
      then match l' with
           | d :: l'' =>
               if is_digit d
               then digitpart_tail l'' (10 * acc + digit_val d) (S n)
               else (acc, n, l)
           | [] => (acc, n, l)
           end
      else (acc, n, l)
  | [] => (acc, n, l)
  end.

Definition digitpart (l : list ascii) : option (Z * nat * list ascii) :=
  match l with
  | c :: l' => if is_digit c then Some (digitpart_tail l' (digit_val c) 1%nat)
               else None
  | [] => None
  end.

(** An optional sign: [true] for a minus. *)
Definition sign (l : list ascii) : bool * list ascii :=
  match l with
  | c :: l' => if code c =? 43 then (false, l')
               else if code c =? 45 then (true, l')
               else (false, l)
  | [] => (false, l)
  end.

Definition apply_sign (neg : bool) (v : Z) : Z := if neg then - v else v.

(** The most digits [int] reads, zeros in front counted and underscores
    not: [sys.get_int_max_str_digits()], 4300 as the interpreter starts. *)
Definition max_str_digits : Z := 4300.

(** [int(s)] in base 10 on a string without blanks at its ends: [None]
    stands for [ValueError], also the one for a text of more digits than
    [max_str_digits].  ([int] trims blanks itself, but only characters that
    [str.strip] removes too, and [search_data] passes stripped text.) *)
Definition int (s : string) : option Z :=
  let (neg, l) := sign (chars s) in
  match digitpart l with
  | Some (v, n, []) =>
      if max_str_digits <? Z.of_nat n then None else Some (apply_sign neg v)
  | _ => None
  end.

(** A binary64 value: the rational it denotes, an infinity or NaN. *)
Inductive float : Type :=
| NaN
| Inf (neg : bool)
| Fin (q : Q).

(** [n/d * 2^s] as a fraction, for [d > 0]. *)
Definition shift_frac (n d s : Z) : Z * Z :=
  if 0 <=? s then (n * 2 ^ s, d) else (n, d * 2 ^ (- s)).

(** [n/d] rounded to the nearest integer, ties to even ([0 <= n], [0 < d]). *)
Definition round_half_even (n d : Z) : Z :=
  let q := n / d in
  match (2 * (n mod d)) ?= d with
  | Lt => q
  | Gt => q + 1
  | Eq => if Z.even q then q else q + 1
  end.

(** [m * 2^e] as a rational in lowest terms. *)
Definition dyadic (m e : Z) : Q :=
  Qred (if 0 <=? e then inject_Z (m * 2 ^ e)
        else Qmake m (Z.to_pos (2 ^ (- e)))).

(** The binary64 value nearest to [n/d] ([0 < n], [0 < d]): 53 significant
    bits, exponents from -1022 (below that, subnormal) to 1023. *)
Definition binary64_of_frac (neg : bool) (n d : Z) : float :=
  let e0 := Z.log2 n - Z.log2 d in
  let '(n1, d1) := shift_frac n d (- e0) in
  let e := Z.max (if n1 <? d1 then e0 - 1 else e0) (-1022) in
  let '(n2, d2) := shift_frac n d (52 - e) in
  let m := round_half_even n2 d2 in
  if (1023 <? e) || ((e =? 1023) && (m =? 2 ^ 53)) then Inf neg
  else Fin (dyadic (apply_sign neg m) (e - 52)).

(** The value of the decimal [mant * 10^ex]. *)
Definition float_of_decimal (neg : bool) (mant ex : Z) : float :=
  if mant =? 0 then Fin 0
  else if 0 <=? ex then binary64_of_frac neg (mant * 10 ^ ex) 1
  else binary64_of_frac neg mant (10 ^ (- ex)).

(** [number ::= [digitpart] "." digitpart | digitpart ["."]]: the digits as
    an integer, the number of digits after the point and the unread rest. *)
Definition number (l : list ascii) : option (Z * Z * list ascii) :=
  match digitpart l with
  | Some (iv, _, rest) =>
      match rest with
      | c :: rest' =>
          if code c =? 46
          then match digitpart rest' with
               | Some (fv, k, rest'') =>
                   Some (iv * 10 ^ Z.of_nat k + fv, Z.of_nat k, rest'')
               | None => Some (iv, 0, rest')
               end
          else Some (iv, 0, rest)
      | [] => Some (iv, 0, rest)
      end
  | None =>
      match l with
      | c :: rest' =>
          if code c =? 46
          then match digitpart rest' with
               | Some (fv, k, rest'') => Some (fv, Z.of_nat k, rest'')
               | None => None
               end
          else None
      | [] => None
      end
  end.

(** [exponent ::= ("e" | "E") [sign] digitpart], up to the end of the text;
    no exponent is exponent 0. *)
Definition exponent (l : list ascii) : option Z :=
  match l with
  | [] => Some 0
  | c :: l' =>
      if (code c =? 101) || (code c =? 69)
      then let (neg, l'') := sign l' in
           match digitpart l'' with
           | Some (v, _, []) => Some (apply_sign neg v)
           | _ => None
           end
      else None
  end.

Definition lowered (l : list ascii) : string := str (map lower l).

(** [float(s)] on a string without blanks at its ends: [None] stands for
    [ValueError]. *)
Definition float_of_str (s : string) : option float :=
  let (neg, l) := sign (chars s) in
  let w := lowered l in
  if (w =? "inf")%string || (w =? "infinity")%string then Some (Inf neg)
  else if (w =? "nan")%string then Some NaN
  else match number l with
       | Some (mant, k, rest) =>
           match exponent rest with
           | Some ex => Some (float_of_decimal neg mant (ex - k))
           | None => None
           end
       | None => None
       end.

(** [a <= b] on floats: false when either side is NaN. *)
Definition fle (a b : float) : bool :=
  match a, b with
  | NaN, _ | _, NaN => false
  | Inf true, _ => true
  | _, Inf false => true
  | Inf false, _ => false
  | _, Inf true => false
  | Fin x, Fin y => Qle_bool x y
  end.

(** A Python [int] in a comparison with a float. *)
Definition of_int (z : Z) : float := Fin (inject_Z z).

End PyNum.

(** ** Regular expressions: the part of [re] the model covers

    [Series.str.contains(pat, case=False, na=False)] compiles [pat] with
    [re.compile(pat, re.IGNORECASE)] and keeps the cells where
    [regex.search] finds a match.  The model covers the patterns built from
    ordinary characters, [.], groups [( )] and alternation [|]; a pattern
    that uses any other special character is reported as [Unmodelled].
    (For a pattern with groups pandas also issues a warning; it changes
    nothing in the result.) *)

Module PyRe.
Import PyStr.

Inductive regex : Type :=
| Never
| Empty
| Lit (c : ascii)
| AnyChar
| Seq (r1 r2 : regex)
| Alt (r1 r2 : regex).

Inductive compiled : Type :=
| Pattern (r : regex)
| BadPattern          (* re.compile raises re.error *)
| Unmodelled.         (* syntax outside the fragment *)

(** The special characters the fragment leaves out: [\ ^ $ * + ? { } [ ]]. *)
Definition beyond_fragment (c : ascii) : bool :=
  let n := code c in
  (n =? 92) || (n =? 94) || (n =? 36) || (n =? 42) || (n =? 43) || (n =? 63)
  || (n =? 123) || (n =? 125) || (n =? 91) || (n =? 93).

(** The special characters of [re]: those above and [. | ( )]. *)
Definition special (c : ascii) : bool :=
  let n := code c in
  beyond_fragment c || (n =? 46) || (n =? 124) || (n =? 40) || (n =? 41).

(** A branch being read: the alternatives closed so far and the sequence
    under way. *)
Definition branch : Type := option regex * regex.

Definition close (b : branch) : regex :=
  match b with
  | (None, s) => s
  | (Some a, s) => Alt a s
  end.

Definition push (b : branch) (r : regex) : branch := (fst b, Seq (snd b) r).

(** The parser: [cur] is the branch under way, [stack] the branches of the
    groups still open. *)
Fixpoint parse (l : list ascii) (cur : branch) (stack : list branch)
  : compiled :=
  match l with
  | [] => match stack with
          | [] => Pattern (close cur)
          | _ :: _ => BadPattern       (* missing ) *)
          end
  | c :: l' =>
      let n := code c in
      if n =? 40 then parse l' (None, Empty) (cur :: stack)
      else if n =? 41 then
        match stack with
        | [] => BadPattern            (* unbalanced parenthesis *)
        | outer :: stack' => parse l' (push outer (close cur)) stack'
        end
      else if n =? 124 then parse l' (Some (close cur), Empty) stack
      else if n =? 46 then parse l' (push cur AnyChar) stack
      else parse l' (push cur (Lit c)) stack
  end.

(** [re.compile(pat, re.IGNORECASE)] *)
Definition compile (pat : string) : compiled :=
  if existsb beyond_fragment (chars pat) then Unmodelled
  else parse (chars pat) (None, Empty) [].

Fixpoint nullable (r : regex) : bool :=
  match r with
  | Never => false
  | Empty => true
  | Lit _ => false
  | AnyChar => false
  | Seq r1 r2 => nullable r1 && nullable r2
  | Alt r1 r2 => nullable r1 || nullable r2
  end.

(** What is left of [r] after it has read the character [c]; letters are
    compared without case, and [.] reads anything but a line feed. *)
Fixpoint deriv (c : ascii) (r : regex) : regex :=
  match r with
  | Never => Never
  | Empty => Never
  | Lit a => if Ascii.eqb (lower a) (lower c) then Empty else Never
  | AnyChar => if code c =? 10 then Never else Empty
  | Seq r1 r2 =>
      if nullable r1 then Alt (Seq (deriv c r1) r2) (deriv c r2)
      else Seq (deriv c r1) r2
  | Alt r1 r2 => Alt (deriv c r1) (deriv c r2)
  end.

(** Some prefix of [l] matches [r]. *)
Fixpoint match_here (r : regex) (l : list ascii) : bool :=
  nullable r ||
  match l with
  | [] => false
  | c :: l' => match_here (deriv c r) l'
  end.

(** [regex.search(s) is not None]: a match starts somewhere in [l]. *)
Fixpoint search_chars (r : regex) (l : list ascii) : bool :=
  match_here r l ||
  match l with
  | [] => false
  | _ :: l' => search_chars r l'
  end.

Definition search (r : regex) (s : string) : bool := search_chars r (chars s).

(** The words a pattern matches in full. *)
Inductive matches : regex -> list ascii -> Prop :=
| m_empty : matches Empty []
| m_lit a c : lower a = lower c -> matches (Lit a) [c]
| m_any c : code c <> 10 -> matches AnyChar [c]
| m_seq r1 r2 w1 w2 :
    matches r1 w1 -> matches r2 w2 -> matches (Seq r1 r2) (w1 ++ w2)
| m_alt_l r1 r2 w : matches r1 w -> matches (Alt r1 r2) w
| m_alt_r r1 r2 w : matches r2 w -> matches (Alt r1 r2) w.

(** Two texts of one length whose characters agree without case. *)
Definition ieq (q w : list ascii) : Prop :=
  Forall2 (fun a c => lower a = lower c) q w.

(** The pattern of a text without special characters. *)
Definition literal (acc : regex) (l : list ascii) : regex :=
  fold_left (fun r c => Seq r (Lit c)) l acc.

End PyRe.

Local Close Scope list_scope.
Local Open Scope list_scope.

(** ** Data model *)

(** One row of the movie table. *)
Record Movie : Type := mkMovie {
  title : option string;
  genre : option string;
  year : Z;
  rating : PyNum.float;
  actors : option string;
  director : option string
}.

Definition DataFrame : Type := list Movie.

(** The text the user typed in the six [Entry] widgets. *)
Record Query : Type := mkQuery {
  title_entry : string;
  genre_entry : string;
  release_date_entry : string;
  rating_entry : string;
  actor_entry : string;
  director_entry : string
}.

(** What the user is shown. *)
Inductive outcome : Type :=
| ErrorBox (box message : string)   (* messagebox.showerror(box, message) *)
| ResultTable (rows : DataFrame).    (* the Treeview filled by show_results *)

(** ** Frames in a store, and a monad for state and uncaught exceptions *)

Inductive exn : Type :=
| re_error
| AttributeError.

Inductive res (A : Type) : Type :=
| Val (a : A)
| Raised (e : exn)     (* an exception leaves the function *)
| Beyond.              (* the run left what the model covers *)

Arguments Val {A} a.
Arguments Raised {A} e.
Arguments Beyond {A}.

Definition ref : Type := nat.

Definition Store : Type := list DataFrame.

Definition M (A : Type) : Type := Store -> res A * Store.

Definition ret {A} (a : A) : M A := fun st => (Val a, st).

Definition bind {A B} (c : M A) (k : A -> M B) : M B :=
  fun st =>
    match c st with
    | (Val a, st') => k a st'
    | (Raised e, st') => (Raised e, st')
    | (Beyond, st') => (Beyond, st')
    end.

Declare Scope py_scope.
Delimit Scope py_scope with py.

Notation "x <- c ;; k" := (bind c (fun x => k))
  (at level 100, c at next level, right associativity) : py_scope.
Notation "' pat <- c ;; k" := (bind c (fun x => match x with pat => k end))
  (at level 100, pat pattern, c at next level, right associativity) : py_scope.

Local Open Scope py_scope.

(** A new frame object. *)
Definition alloc (df : DataFrame) : M ref :=
  fun st => (Val (List.length st), st ++ [df]).

(** The frame a reference points to. *)
Definition deref (r : ref) : M DataFrame :=
  fun st =>
    match nth_error st r with
    | Some df => (Val df, st)
    | None => (Beyond, st)
    end.

Definition lift {A} (r : res A) : M A := fun st => (r, st).

(** ** pandas operations *)

(** [col.str.contains(pat, case=False, na=False)] on an object column: the
    pattern is compiled first, whatever the column holds; a missing cell
    gives [na].  (On a column of another type [.str] itself raises: see
    [str_accessor] and [search_data_typed].) *)
Definition str_contains (col : list (option string)) (pat : string)
  : res (list bool) :=
  match PyRe.compile pat with
  | PyRe.Pattern r =>
      Val (map (fun cell =>
                  match cell with
                  | Some s => PyRe.search r s
                  | None => false
                  end) col)
  | PyRe.BadPattern => Raised re_error
  | PyRe.Unmodelled => Beyond
  end.

(** [df[mask]]: the rows where the mask holds, in order. *)
Fixpoint boolean_index (df : DataFrame) (mask : list bool) : DataFrame :=
  match df, mask with
  | row :: df', b :: mask' =>
      if b then row :: boolean_index df' mask' else boolean_index df' mask'
  | _, _ => []
  end.

(** [df.empty] *)
Definition empty (df : DataFrame) : bool :=
  match df with [] => true | _ :: _ => false end.

(** ** The program *)

Definition msg_input_required : string :=
  "Please enter search criteria in at least one field.".
Definition msg_year_range : string :=
  "Invalid year. Please enter a year between 1920 and 2022.".
Definition msg_year_int : string :=
  "Release year must be an integer between 1920 and 2022.".
Definition msg_rating_range : string :=
  "Rating should be between 1 and 10.".
Definition msg_rating_float : string :=
  "Invalid rating. Please enter a number between 1 and 10.".
Definition msg_no_results : string :=
  "No results found. Please adjust your search criteria.".
Definition msg_no_results_show : string :=
  "No results found. Please try different search criteria.".

(** [show_results(data, search_window, error_msg)] *)
Definition show_results (data : DataFrame) (error_msg : option string)
  : outcome :=
  let given := match error_msg with
               | Some m => PyStr.truthy m
               | None => false
               end in
  if empty data || given then
    ErrorBox "Error"
      (match error_msg with
       | Some m => if PyStr.truthy m then m else msg_no_results_show
       | None => msg_no_results_show
       end)
  else ResultTable data.

(** The four text filters of [search_data] (title, genre, actors, director):
    [if q: filtered_data =
       filtered_data[filtered_data[col].str.contains(q, case=False, na=False)]] *)
Definition text_filter (column : Movie -> option string) (query : string)
  (filtered_data : ref) : M ref :=
  if PyStr.truthy query then
    df <- deref filtered_data ;;
    mask <- lift (str_contains (map column df) query) ;;
    alloc (boolean_index df mask)
  else ret filtered_data.

(** The release-date block: [int] inside [try], the range check, the filter
    on equality or the appended message. *)
Definition year_filter (release_date_query : string) (filtered_data : ref)
  (error_msgs : list string) : M (ref * list string) :=
  if PyStr.truthy release_date_query then
    match PyNum.int release_date_query with
    | Some release_year =>
        if negb ((1920 <=? release_year) && (release_year <=? 2022))
        then ret (filtered_data, error_msgs ++ [msg_year_range])
        else
          df <- deref filtered_data ;;
          r <- alloc (boolean_index df
                        (map (fun m => year m =? release_year) df)) ;;
          ret (r, error_msgs)
    | None => ret (filtered_data, error_msgs ++ [msg_year_int])
    end
  else ret (filtered_data, error_msgs).

(** The rating block: [float] inside [try], the range check, the filter on
    [rating >= rating_num] or the appended message. *)
Definition rating_filter (rating_query : string) (filtered_data : ref)
  (error_msgs : list string) : M (ref * list string) :=
  if PyStr.truthy rating_query then
    match PyNum.float_of_str rating_query with
    | Some rating_num =>
        if negb (PyNum.fle (PyNum.of_int 1) rating_num
                 && PyNum.fle rating_num (PyNum.of_int 10))
        then ret (filtered_data, error_msgs ++ [msg_rating_range])
        else
          df <- deref filtered_data ;;
          r <- alloc (boolean_index df
                        (map (fun m => PyNum.fle rating_num (rating m)) df)) ;;
          ret (r, error_msgs)
    | None => ret (filtered_data, error_msgs ++ [msg_rating_float])
    end
  else ret (filtered_data, error_msgs).

(** Truth value of a list. *)
Definition nonempty {A} (l : list A) : bool :=
  match l with [] => false | _ :: _ => true end.

(** [search_data(data, title_entry, ..., director_entry, ...)] *)
Definition search_data (data : ref) (q : Query) : M outcome :=
  let title_query := PyStr.strip (title_entry q) in
  let genre_query := PyStr.strip (genre_entry q) in
  let release_date_query := PyStr.strip (release_date_entry q) in
  let rating_query := PyStr.strip (rating_entry q) in
  let actor_query := PyStr.strip (actor_entry q) in
  let director_query := PyStr.strip (director_entry q) in
  if negb (PyStr.any [title_query; genre_query; release_date_query;
                      rating_query; actor_query; director_query])
  then ret (ErrorBox "Input Required" msg_input_required)
  else
    let filtered_data := data in
    let error_msgs := @nil string in
    filtered_data <- text_filter title title_query filtered_data ;;
    filtered_data <- text_filter genre genre_query filtered_data ;;
    '(filtered_data, error_msgs) <-
       year_filter release_date_query filtered_data error_msgs ;;
    '(filtered_data, error_msgs) <-
       rating_filter rating_query filtered_data error_msgs ;;
    filtered_data <- text_filter actors actor_query filtered_data ;;
    filtered_data <- text_filter director director_query filtered_data ;;
    df <- deref filtered_data ;;
    if nonempty error_msgs || empty df then
      let error_msgs :=
        if negb (nonempty error_msgs) then error_msgs ++ [msg_no_results]
        else error_msgs in
      ret (ErrorBox "Search Error" (PyStr.join PyStr.newline error_msgs))
    else ret (show_results df None).

(** The outcome of a call, without the store. *)
Definition run (data : ref) (q : Query) (st : Store) : res outcome :=
  fst (search_data data q st).

(** ** The filter as one pass over the table

    The description of the filter: each field gives a predicate or an error
    message, the messages are gathered, and the table is filtered once by the
    conjunction of the predicates. *)

Definition always : Movie -> bool := fun _ => true.

(** The predicate of a text field: the one [str.contains] computes. *)
Definition text_predicate (column : Movie -> option string) (query : string)
  : res (Movie -> bool) :=
  if PyStr.truthy query then
    match PyRe.compile query with
    | PyRe.Pattern r =>
        Val (fun m => match column m with
                      | Some s => PyRe.search r s
                      | None => false
                      end)
    | PyRe.BadPattern => Raised re_error
    | PyRe.Unmodelled => Beyond
    end
  else Val always.

Definition valid_year (y : Z) : bool := (1920 <=? y) && (y <=? 2022).

Definition valid_rating (v : PyNum.float) : bool :=
  PyNum.fle (PyNum.of_int 1) v && PyNum.fle v (PyNum.of_int 10).

(** The predicate of the year field and the messages it gives. *)
Definition year_predicate (query : string) : (Movie -> bool) * list string :=
  if PyStr.truthy query then
    match PyNum.int query with
    | Some y => if valid_year y then (fun m => year m =? y, [])
                else (always, [msg_year_range])
    | None => (always, [msg_year_int])
    end
  else (always, []).

(** The predicate of the rating field and the messages it gives. *)
Definition rating_predicate (query : string)
  : (Movie -> bool) * list string :=
  if PyStr.truthy query then
    match PyNum.float_of_str query with
    | Some v => if valid_rating v then (fun m => PyNum.fle v (rating m), [])
                else (always, [msg_rating_range])
    | None => (always, [msg_rating_float])
    end
  else (always, []).

Definition rbind {A B} (r : res A) (k : A -> res B) : res B :=
  match r with
  | Val a => k a
  | Raised e => Raised e
  | Beyond => Beyond
  end.

(** All six fields are empty once stripped. *)
Definition all_blank (q : Query) : bool :=
  negb (PyStr.any [PyStr.strip (title_entry q); PyStr.strip (genre_entry q);
                   PyStr.strip (release_date_entry q);
                   PyStr.strip (rating_entry q); PyStr.strip (actor_entry q);
                   PyStr.strip (director_entry q)]).

(** The conjunction of the predicates of the six fields, with the messages
    of the two numeric fields. *)
Definition query_predicate (q : Query)
  : res ((Movie -> bool) * list string) :=
  rbind (text_predicate title (PyStr.strip (title_entry q))) (fun p1 =>
  rbind (text_predicate genre (PyStr.strip (genre_entry q))) (fun p2 =>
  let (p3, e3) := year_predicate (PyStr.strip (release_date_entry q)) in
  let (p4, e4) := rating_predicate (PyStr.strip (rating_entry q)) in
  rbind (text_predicate actors (PyStr.strip (actor_entry q))) (fun p5 =>
  rbind (text_predicate director (PyStr.strip (director_entry q))) (fun p6 =>
  Val (fun m => p1 m && p2 m && p3 m && p4 m && p5 m && p6 m, e3 ++ e4))))).

Definition search_error (msgs : list string) : outcome :=
  ErrorBox "Search Error" (PyStr.join PyStr.newline msgs).

(** The rows found, or the message that there are none. *)
Definition rows_or_no_results (rows : DataFrame) : outcome :=
  if empty rows then search_error [msg_no_results] else ResultTable rows.

(** One pass: reject the blank query, report the gathered messages, or
    filter the table once. *)
Definition single_pass (D : DataFrame) (q : Query) : res outcome :=
  if all_blank q then Val (ErrorBox "Input Required" msg_input_required)
  else
    rbind (query_predicate q) (fun pe =>
      match snd pe with
      | [] => Val (rows_or_no_results (filter (fst pe) D))
      | _ :: _ => Val (search_error (snd pe))
      end).

(** The order of a table is kept: [l1] is [l2] with some rows left out. *)
Inductive subseq {A : Type} : list A -> list A -> Prop :=
| subseq_nil : subseq [] []
| subseq_skip x l1 l2 : subseq l1 l2 -> subseq l1 (x :: l2)
| subseq_keep x l1 l2 : subseq l1 l2 -> subseq (x :: l1) (x :: l2).

(** Containment without case, as a search for the text itself. *)
Fixpoint iprefix (q s : list ascii) : bool :=
  match q, s with
  | [], _ => true
  | _ :: _, [] => false
  | a :: q', c :: s' =>
      Ascii.eqb (PyStr.lower a) (PyStr.lower c) && iprefix q' s'
  end.

Fixpoint icontains_chars (q s : list ascii) : bool :=
  iprefix q s ||
  match s with
  | [] => false
  | _ :: s' => icontains_chars q s'
  end.

(** [q] occurs in [s], letters compared without case. *)
Definition icontains (q s : string) : bool :=
  icontains_chars (PyStr.chars q) (PyStr.chars s).

(** ** Stores and messages: the notions the statements use *)

(** [st'] is [st] with new frames added at the end. *)
Definition extends (st st' : Store) : Prop := exists new, st' = st ++ new.

(** After a block: the store has only grown and the working reference
    points to the rows of [df] that satisfy [p]. *)
Definition filtered_to (st : Store) (df : DataFrame) (p : Movie -> bool)
  (fd' : ref) (st' : Store) : Prop :=
  extends st st' /\ nth_error st' fd' = Some (filter p df).

(** The messages of the two numeric fields. *)
Definition invalid_year_msg (m : string) : Prop :=
  m = msg_year_range \/ m = msg_year_int.

Definition invalid_rating_msg (m : string) : Prop :=
  m = msg_rating_range \/ m = msg_rating_float.

(** A float that is a real number between 1 and 10. *)
Definition rating_in_range (v : PyNum.float) : Prop :=
  exists x, v = PyNum.Fin x /\ (1 <= x)%Q /\ (x <= 10)%Q.

(** A query with the year field alone, and one with the rating field alone. *)
Definition year_only (e : string) : Query := mkQuery "" "" e "" "" "".

Definition rating_only (e : string) : Query := mkQuery "" "" "" e "" "".

(** A field left blank: only whitespace. *)
Definition is_blank (s : string) : bool :=
  forallb PyStr.is_space (PyStr.chars s).

(** ** The table of the examples *)

(** The binary64 value of the decimal 8.8. *)
Definition rating_8_8 : PyNum.float :=
  PyNum.Fin (Qmake 2476979795053773 281474976710656).

Definition inception : Movie :=
  mkMovie (Some "Inception") (Some "Sci-Fi") 2010 rating_8_8
          (Some "Leonardo DiCaprio") (Some "Christopher Nolan").

(** The query of the second example: year "2010" and rating "8". *)
Definition year_2010_rating_8 : Query := mkQuery "" "" "2010" "8" "" "".

(** ** Queries compared with one another *)

(** [q] asks for less than [q']: each field of [q] is blank or is the field
    of [q'] up to the blanks at its ends. *)
Definition field_refines (a b : string) : Prop :=
  PyStr.strip a = "" \/ PyStr.strip a = PyStr.strip b.

Definition refines (q q' : Query) : Prop :=
  field_refines (title_entry q) (title_entry q')
  /\ field_refines (genre_entry q) (genre_entry q')
  /\ field_refines (release_date_entry q) (release_date_entry q')
  /\ field_refines (rating_entry q) (rating_entry q')
  /\ field_refines (actor_entry q) (actor_entry q')
  /\ field_refines (director_entry q) (director_entry q').

(** Two queries that can be put together: no field is filled in
    differently by the two. *)
Definition compatible_field (a b : string) : Prop :=
  PyStr.strip a = "" \/ PyStr.strip b = "" \/ PyStr.strip a = PyStr.strip b.

Definition compatible (q1 q2 : Query) : Prop :=
  compatible_field (title_entry q1) (title_entry q2)
  /\ compatible_field (genre_entry q1) (genre_entry q2)
  /\ compatible_field (release_date_entry q1) (release_date_entry q2)
  /\ compatible_field (rating_entry q1) (rating_entry q2)
  /\ compatible_field (actor_entry q1) (actor_entry q2)
  /\ compatible_field (director_entry q1) (director_entry q2).

Definition merge_field (a b : string) : string :=
  if PyStr.truthy (PyStr.strip a) then a else b.

(** The query with the fields of both. *)
Definition merge (q1 q2 : Query) : Query :=
  mkQuery (merge_field (title_entry q1) (title_entry q2))
          (merge_field (genre_entry q1) (genre_entry q2))
          (merge_field (release_date_entry q1) (release_date_entry q2))
          (merge_field (rating_entry q1) (rating_entry q2))
          (merge_field (actor_entry q1) (actor_entry q2))
          (merge_field (director_entry q1) (director_entry q2)).

(** [e'] is [e] with blanks added at its ends. *)
Definition padded (e e' : string) : Prop :=
  exists l r, is_blank l = true /\ is_blank r = true
              /\ e' = (l ++ e ++ r)%string.

Definition padded_query (q q' : Query) : Prop :=
  padded (title_entry q) (title_entry q')
  /\ padded (genre_entry q) (genre_entry q')
  /\ padded (release_date_entry q) (release_date_entry q')
  /\ padded (rating_entry q) (rating_entry q')
  /\ padded (actor_entry q) (actor_entry q')
  /\ padded (director_entry q) (director_entry q').

(** Two texts that differ in the case of their letters at most. *)
Definition same_letters (a b : string) : Prop :=
  map PyStr.lower (PyStr.chars a) = map PyStr.lower (PyStr.chars b).

Definition same_letters_cell (a b : option string) : Prop :=
  match a, b with
  | Some x, Some y => same_letters x y
  | None, None => True
  | _, _ => False
  end.

(** Two queries with the same numeric fields whose text fields differ in
    the case of their letters at most. *)
Definition same_letters_query (q q' : Query) : Prop :=
  same_letters (title_entry q) (title_entry q')
  /\ same_letters (genre_entry q) (genre_entry q')
  /\ release_date_entry q = release_date_entry q'
  /\ rating_entry q = rating_entry q'
  /\ same_letters (actor_entry q) (actor_entry q')
  /\ same_letters (director_entry q) (director_entry q').

(** A text without any special character of [re]. *)
Definition plain (s : string) : bool :=
  negb (existsb PyRe.special (PyStr.chars s)).

(** Two characters that differ in case at most. *)
Definition lower_eq (c c' : ascii) : Prop := PyStr.lower c = PyStr.lower c'.

(** Two patterns of one shape whose letters differ in case at most. *)
Inductive same_pattern : PyRe.regex -> PyRe.regex -> Prop :=
| sp_never : same_pattern PyRe.Never PyRe.Never
| sp_empty : same_pattern PyRe.Empty PyRe.Empty
| sp_lit a a' :
    PyStr.lower a = PyStr.lower a' ->
    same_pattern (PyRe.Lit a) (PyRe.Lit a')
| sp_any : same_pattern PyRe.AnyChar PyRe.AnyChar
| sp_seq r1 r1' r2 r2' :
    same_pattern r1 r1' -> same_pattern r2 r2' ->
    same_pattern (PyRe.Seq r1 r2) (PyRe.Seq r1' r2')
| sp_alt r1 r1' r2 r2' :
    same_pattern r1 r1' -> same_pattern r2 r2' ->
    same_pattern (PyRe.Alt r1 r2) (PyRe.Alt r1' r2').

Definition same_branch (b b' : PyRe.branch) : Prop :=
  match fst b, fst b' with
  | Some a, Some a' => same_pattern a a'
  | None, None => True
  | _, _ => False
  end /\ same_pattern (snd b) (snd b').

Definition same_compiled (c c' : PyRe.compiled) : Prop :=
  match c, c' with
  | PyRe.Pattern r, PyRe.Pattern r' => same_pattern r r'
  | PyRe.BadPattern, PyRe.BadPattern => True
  | PyRe.Unmodelled, PyRe.Unmodelled => True
  | _, _ => False
  end.

(** Two results that agree: the same predicate on every row, or the same
    way of stopping. *)
Definition same_predicate (r r' : res (Movie -> bool)) : Prop :=
  match r, r' with
  | Val p, Val p' => forall m, p m = p' m
  | Raised e, Raised e' => e = e'
  | Beyond, Beyond => True
  | _, _ => False
  end.

(** What two characters that differ in case at most have in common: both
    are special or blank or a line feed, or neither is. *)
Definition case_check (c c' : ascii) : bool :=
  negb (Ascii.eqb (PyStr.lower c) (PyStr.lower c'))
  || (Bool.eqb (PyRe.beyond_fragment c) (PyRe.beyond_fragment c')
      && Bool.eqb (PyStr.is_space c) (PyStr.is_space c')
      && Bool.eqb (PyStr.code c =? 10) (PyStr.code c' =? 10)
      && Bool.eqb (PyStr.code c =? 40) (PyStr.code c' =? 40)
      && Bool.eqb (PyStr.code c =? 41) (PyStr.code c' =? 41)
      && Bool.eqb (PyStr.code c =? 46) (PyStr.code c' =? 46)
      && Bool.eqb (PyStr.code c =? 124) (PyStr.code c' =? 124)).

(** The 256 characters. *)
Definition all_ascii : list ascii := map ascii_of_nat (seq 0 256).

(** ** The widgets of the search window

    [search_data] and [show_results] written out with their calls on the
    widgets: the calls made are kept in a trace, in order. *)

Inductive gui_call : Type :=
| ButtonConfig (state : string)          (* search_button.config(state=...) *)
| ShowErrorCall (box message : string)   (* messagebox.showerror(box, message) *)
| WindowDestroy                          (* search_window.destroy() *)
| ResultWindow (rows : DataFrame).       (* Toplevel, Treeview and its rows *)

Definition G (A : Type) : Type :=
  Store -> list gui_call -> res A * Store * list gui_call.

Definition gret {A} (a : A) : G A := fun st t => (Val a, st, t).

Definition gbind {A B} (c : G A) (k : A -> G B) : G B :=
  fun st t =>
    match c st t with
    | (Val a, st', t') => k a st' t'
    | (Raised e, st', t') => (Raised e, st', t')
    | (Beyond, st', t') => (Beyond, st', t')
    end.

(** One call on a widget. *)
Definition call (c : gui_call) : G unit :=
  fun st t => (Val tt, st, t ++ [c]).

(** A step on the frames alone. *)
Definition liftG {A} (m : M A) : G A :=
  fun st t => let (r, st') := m st in (r, st', t).

Declare Scope gui_scope.
Delimit Scope gui_scope with gui.

Notation "x <- c ;; k" := (gbind c (fun x => k))
  (at level 100, c at next level, right associativity) : gui_scope.
Notation "' pat <- c ;; k" := (gbind c (fun x => match x with pat => k end))
  (at level 100, pat pattern, c at next level, right associativity)
  : gui_scope.
Notation "c ;;; k" := (gbind c (fun _ => k))
  (at level 100, right associativity) : gui_scope.

(** [show_results(data, search_window, error_msg)] with its calls. *)
Definition show_results_gui (data : DataFrame) (error_msg : option string)
  : G unit :=
  let given := match error_msg with
               | Some m => PyStr.truthy m
               | None => false
               end in
  if empty data || given then
    call (ShowErrorCall "Error"
            (match error_msg with
             | Some m => if PyStr.truthy m then m else msg_no_results_show
             | None => msg_no_results_show
             end))
  else (call WindowDestroy ;;; call (ResultWindow data))%gui.

(** [search_data] with its calls on the button, the message boxes and the
    window. *)
Definition search_data_gui (data : ref) (q : Query) : G unit :=
  (call (ButtonConfig "disabled") ;;;
   let title_query := PyStr.strip (title_entry q) in
   let genre_query := PyStr.strip (genre_entry q) in
   let release_date_query := PyStr.strip (release_date_entry q) in
   let rating_query := PyStr.strip (rating_entry q) in
   let actor_query := PyStr.strip (actor_entry q) in
   let director_query := PyStr.strip (director_entry q) in
   if negb (PyStr.any [title_query; genre_query; release_date_query;
                       rating_query; actor_query; director_query])
   then
     call (ShowErrorCall "Input Required" msg_input_required) ;;;
     call (ButtonConfig "normal")
   else
     let filtered_data := data in
     let error_msgs := @nil string in
     filtered_data <- liftG (text_filter title title_query filtered_data) ;;
     filtered_data <- liftG (text_filter genre genre_query filtered_data) ;;
     '(filtered_data, error_msgs) <-
        liftG (year_filter release_date_query filtered_data error_msgs) ;;
     '(filtered_data, error_msgs) <-
        liftG (rating_filter rating_query filtered_data error_msgs) ;;
     filtered_data <- liftG (text_filter actors actor_query filtered_data) ;;
     filtered_data <-
       liftG (text_filter director director_query filtered_data) ;;
     df <- liftG (deref filtered_data) ;;
     if nonempty error_msgs || empty df then
       let error_msgs :=
         if negb (nonempty error_msgs) then error_msgs ++ [msg_no_results]
         else error_msgs in
       call (ShowErrorCall "Search Error"
               (PyStr.join PyStr.newline error_msgs)) ;;;
       call (ButtonConfig "normal")
     else
       call WindowDestroy ;;;
       show_results_gui df None)%gui.

(** The search window: whether it still exists and whether its Search
    button takes clicks. *)
Record Widgets : Type := mkWidgets {
  window_open : bool;
  button_enabled : bool
}.

(** The window as [create_search_window] makes it. *)
Definition new_window : Widgets := mkWidgets true true.

Definition apply_call (w : Widgets) (c : gui_call) : Widgets :=
  match c with
  | ButtonConfig state =>
      mkWidgets (window_open w) (String.eqb state "normal")
  | WindowDestroy => mkWidgets false (button_enabled w)
  | ShowErrorCall _ _ => w
  | ResultWindow _ => w
  end.

Definition apply_calls (w : Widgets) (t : list gui_call) : Widgets :=
  fold_left apply_call t w.

(** A click on the Search button with the text [q] in the fields: the
    command runs only when the window exists and the button is not
    disabled.  The result is the store, the widgets and the calls made. *)
Definition click_search (data : ref) (q : Query)
  (s : Store * Widgets) : Store * Widgets * list gui_call :=
  let (st, w) := s in
  if window_open w && button_enabled w then
    match search_data_gui data q st [] with
    | (_, st', t) => (st', apply_calls w t, t)
    end
  else (st, w, []).

(** Several clicks, one after the other, with the calls of all of them. *)
Fixpoint clicks (data : ref) (qs : list Query) (s : Store * Widgets)
  : Store * Widgets * list gui_call :=
  match qs with
  | [] => (s, [])
  | q :: qs' =>
      match click_search data q s with
      | (st', w', t) =>
          match clicks data qs' (st', w') with
          | (s'', t') => (s'', t ++ t')
          end
      end
  end.

(** The calls of a search whose run on the frames ended with [r]. *)
Definition calls_of (r : res outcome) : list gui_call :=
  ButtonConfig "disabled" ::
  match r with
  | Val (ErrorBox box message) =>
      [ShowErrorCall box message; ButtonConfig "normal"]
  | Val (ResultTable rows) =>
      [WindowDestroy; WindowDestroy; ResultWindow rows]
  | Raised _ => []
  | Beyond => []
  end.

Definition forget {A} (r : res A) : res unit :=
  match r with
  | Val _ => Val tt
  | Raised e => Raised e
  | Beyond => Beyond
  end.

(** ** The columns of the result table *)

(** The longest text of a column in characters: its name or one of its
    cells as [astype(str)] gives them;
    [max((len(col), data[col].astype(str).map(len).max()))]. *)
Definition column_chars (col : string) (cells : list string) : Z :=
  fold_left Z.max (map (fun s => Z.of_nat (String.length s)) cells)
            (Z.of_nat (String.length col)).

(** [min(300, max(100, column_widths[column] * 7))] *)
Definition column_width (col : string) (cells : list string) : Z :=
  Z.min 300 (Z.max 100 (column_chars col cells * 7)).

(** ** The two tables

    [data_18_plus] and [data_under_18] are loaded once; each search window
    is made for one of them. *)
Definition data_18_plus : ref := 0%nat.
Definition data_under_18 : ref := 1%nat.

Definition loaded (adults minors : DataFrame) : Store := [adults; minors].

(** ** The types of the text columns

    [read_csv] gives each column of the file a type.  A column with text in
    it is an object column; a column whose cells are all empty, in a file
    with rows, is a float64 column of NaN, and a column of numbers alone is
    a float64 or int64 column.  [Series.str] exists for object columns
    only.  [search_data] above is the program on a table whose four text
    columns are object columns; [search_data_typed] is the program with the
    types of these columns, which every frame cut from the table keeps. *)

Inductive dtype : Type :=
| object_dtype
| float64_dtype
| int64_dtype.

(** The types of the columns title, genre, actors and director. *)
Record TextDtypes : Type := mkTextDtypes {
  title_dtype : dtype;
  genre_dtype : dtype;
  actors_dtype : dtype;
  director_dtype : dtype
}.

Definition object_columns : TextDtypes :=
  mkTextDtypes object_dtype object_dtype object_dtype object_dtype.

(** [col.str]: [AttributeError] unless the column is an object column. *)
Definition str_accessor (d : dtype) : res unit :=
  match d with
  | object_dtype => Val tt
  | float64_dtype => Raised AttributeError
  | int64_dtype => Raised AttributeError
  end.

(** A text filter of [search_data] on a column of type [d]: the accessor
    [.str] comes before [contains]. *)
Definition text_filter_typed (d : dtype) (column : Movie -> option string)
  (query : string) (filtered_data : ref) : M ref :=
  if PyStr.truthy query then
    df <- deref filtered_data ;;
    _ <- lift (str_accessor d) ;;
    mask <- lift (str_contains (map column df) query) ;;
    alloc (boolean_index df mask)
  else ret filtered_data.

(** [search_data] on a table whose text columns have the types [types]. *)
Definition search_data_typed (types : TextDtypes) (data : ref) (q : Query)
  : M outcome :=
  let title_query := PyStr.strip (title_entry q) in
  let genre_query := PyStr.strip (genre_entry q) in
  let release_date_query := PyStr.strip (release_date_entry q) in
  let rating_query := PyStr.strip (rating_entry q) in
  let actor_query := PyStr.strip (actor_entry q) in
  let director_query := PyStr.strip (director_entry q) in
  if negb (PyStr.any [title_query; genre_query; release_date_query;
                      rating_query; actor_query; director_query])
  then ret (ErrorBox "Input Required" msg_input_required)
  else
    let filtered_data := data in
    let error_msgs := @nil string in
    filtered_data <-
      text_filter_typed (title_dtype types) title title_query
                        filtered_data ;;
    filtered_data <-
      text_filter_typed (genre_dtype types) genre genre_query
                        filtered_data ;;
    '(filtered_data, error_msgs) <-
       year_filter release_date_query filtered_data error_msgs ;;
    '(filtered_data, error_msgs) <-
       rating_filter rating_query filtered_data error_msgs ;;
    filtered_data <-
      text_filter_typed (actors_dtype types) actors actor_query
                        filtered_data ;;
    filtered_data <-
      text_filter_typed (director_dtype types) director director_query
                        filtered_data ;;
    df <- deref filtered_data ;;
    if nonempty error_msgs || empty df then
      let error_msgs :=
        if negb (nonempty error_msgs) then error_msgs ++ [msg_no_results]
        else error_msgs in
      ret (ErrorBox "Search Error" (PyStr.join PyStr.newline error_msgs))
    else ret (show_results df None).

Definition run_typed (types : TextDtypes) (data : ref) (q : Query)
  (st : Store) : res outcome :=
  fst (search_data_typed types data q st).

Definition missing (cell : option string) : bool :=
  match cell with
  | None => true
  | Some _ => false
  end.

(** The column has a row and every cell of it is missing. *)
Definition all_missing (cells : list (option string)) : bool :=
  nonempty cells && forallb missing cells.

(** The types are those of the table as loaded, as far as the missing cells
    decide them: a text column whose cells are all missing is float64. *)
Definition as_loaded (D : DataFrame) (types : TextDtypes) : Prop :=
  (all_missing (map title D) = true -> title_dtype types = float64_dtype)
  /\ (all_missing (map genre D) = true -> genre_dtype types = float64_dtype)
  /\ (all_missing (map actors D) = true
      -> actors_dtype types = float64_dtype)
  /\ (all_missing (map director D) = true
      -> director_dtype types = float64_dtype).

(** A field that makes no use of [.str] on its column, or whose column is
    an object column. *)
Definition field_on_text (query : string) (d : dtype) : Prop :=
  PyStr.truthy query = false \/ d = object_dtype.

(** The Inception row without its title, and the types of a table that
    holds this row alone. *)
Definition untitled : Movie :=
  mkMovie None (Some "Sci-Fi") 2010 rating_8_8
          (Some "Leonardo DiCaprio") (Some "Christopher Nolan").

Definition untitled_types : TextDtypes :=
  mkTextDtypes float64_dtype object_dtype object_dtype object_dtype.

(** A text inside the fragment of [re] that is covered. *)
Definition in_fragment (s : string) : bool :=
  negb (existsb PyRe.beyond_fragment (PyStr.chars s)).

(** ** Facts about the library operations *)

Lemma lstrip_chars_blank l :
  PyStr.lstrip_chars l = [] <-> forallb PyStr.is_space l = true.
Proof.
  induction l as [|c l IH]; cbn; [tauto|].
  destruct (PyStr.is_space c); cbn; [exact IH|].
  split; discriminate.
Qed.

Lemma lstrip_chars_head l c l' :
  PyStr.lstrip_chars l = c :: l' -> PyStr.is_space c = false.
Proof.
  induction l as [|a l IH]; cbn; [discriminate|].
  destruct (PyStr.is_space a) eqn:E; [exact IH|].
  intros H; injection H as -> _; exact E.
Qed.

Lemma forallb_rev {A} (f : A -> bool) l :
  forallb f (rev l) = forallb f l.
Proof.
  induction l as [|a l IH]; cbn; [reflexivity|].
  rewrite forallb_app, IH; cbn. rewrite andb_true_r. apply andb_comm.
Qed.

(** A string strips to nothing exactly when all its characters are blanks. *)
Lemma strip_chars_blank l :
  PyStr.strip_chars l = [] <-> forallb PyStr.is_space l = true.
Proof.
  unfold PyStr.strip_chars, PyStr.rstrip_chars. split.
  - intros H. apply (f_equal (@rev ascii)) in H. rewrite rev_involutive in H.
    cbn in H. apply lstrip_chars_blank in H. rewrite forallb_rev in H.
    destruct (PyStr.lstrip_chars l) as [|c l'] eqn:E.
    + now apply lstrip_chars_blank.
    + apply lstrip_chars_head in E. cbn in H. rewrite E in H. discriminate.
  - intros H. apply lstrip_chars_blank in H. rewrite H. reflexivity.
Qed.

Lemma chars_str l : PyStr.chars (PyStr.str l) = l.
Proof. apply list_ascii_of_string_of_list_ascii. Qed.

Lemma strip_blank s :
  PyStr.strip s = "" <-> forallb PyStr.is_space (PyStr.chars s) = true.
Proof.
  unfold PyStr.strip. rewrite <- strip_chars_blank. split.
  - intros H. apply (f_equal PyStr.chars) in H. now rewrite chars_str in H.
  - intros ->. reflexivity.
Qed.

Lemma boolean_index_map (p : Movie -> bool) df :
  boolean_index df (map p df) = filter p df.
Proof.
  induction df as [|m df IH]; cbn; [reflexivity|].
  rewrite IH. reflexivity.
Qed.

Lemma filter_filter {A} (p1 p2 : A -> bool) l :
  filter p2 (filter p1 l) = filter (fun x => p1 x && p2 x) l.
Proof.
  induction l as [|x l IH]; cbn; [reflexivity|].
  destruct (p1 x); cbn; [destruct (p2 x)|]; now rewrite IH.
Qed.

Lemma filter_always (df : DataFrame) : filter always df = df.
Proof. induction df as [|m df IH]; cbn; congruence. Qed.

Lemma filter_subseq {A} (p : A -> bool) l : subseq (filter p l) l.
Proof.
  induction l as [|x l IH]; cbn; [constructor|].
  destruct (p x); now constructor.
Qed.

(** ** Facts about the store and the monad *)

Lemma extends_refl st : extends st st.
Proof. exists []. now rewrite app_nil_r. Qed.

Lemma extends_trans st1 st2 st3 :
  extends st1 st2 -> extends st2 st3 -> extends st1 st3.
Proof. intros [n1 ->] [n2 ->]. exists (n1 ++ n2). now rewrite app_assoc. Qed.

Lemma extends_lookup st st' r df :
  extends st st' -> nth_error st r = Some df -> nth_error st' r = Some df.
Proof.
  intros [new ->] H. rewrite nth_error_app1; [exact H|].
  apply nth_error_Some. congruence.
Qed.

Lemma lookup_alloc (st : Store) df :
  nth_error (st ++ [df]) (List.length st) = Some df.
Proof. rewrite nth_error_app2, Nat.sub_diag by lia. reflexivity. Qed.

Lemma bind_val {A B} (c : M A) (k : A -> M B) st a st' :
  c st = (Val a, st') -> bind c k st = k a st'.
Proof. unfold bind. now intros ->. Qed.

Lemma bind_raised {A B} (c : M A) (k : A -> M B) st e st' :
  c st = (Raised e, st') -> bind c k st = (Raised e, st').
Proof. unfold bind. now intros ->. Qed.

Lemma bind_beyond {A B} (c : M A) (k : A -> M B) st st' :
  c st = (Beyond, st') -> bind c k st = (Beyond, st').
Proof. unfold bind. now intros ->. Qed.

(** ** The blocks of [search_data], one by one *)

Lemma text_filter_spec column query st fd df :
  nth_error st fd = Some df ->
  match text_predicate column query with
  | Val p => exists fd' st',
      text_filter column query fd st = (Val fd', st')
      /\ filtered_to st df p fd' st'
  | Raised e => text_filter column query fd st = (Raised e, st)
  | Beyond => text_filter column query fd st = (Beyond, st)
  end.
Proof.
  intros H. unfold text_predicate, text_filter, filtered_to.
  destruct (PyStr.truthy query).
  - unfold bind, deref, lift, str_contains. rewrite H.
    destruct (PyRe.compile query) as [r| |]; try reflexivity.
    exists (List.length st), (st ++ [filter (fun m =>
      match column m with Some s => PyRe.search r s | None => false end) df]).
    split.
    + unfold alloc. rewrite map_map.
      rewrite (boolean_index_map (fun m =>
        match column m with Some s => PyRe.search r s | None => false end)).
      reflexivity.
    + split; [now eexists | apply lookup_alloc].
  - exists fd, st. split; [reflexivity|].
    split; [apply extends_refl | now rewrite filter_always].
Qed.

Lemma year_filter_spec query st fd df errs :
  nth_error st fd = Some df ->
  exists fd' st',
    year_filter query fd errs st
    = (Val (fd', errs ++ snd (year_predicate query)), st')
    /\ filtered_to st df (fst (year_predicate query)) fd' st'.
Proof.
  intros H. unfold year_predicate, year_filter, valid_year, filtered_to.
  destruct (PyStr.truthy query); cbn [fst snd].
  2:{ exists fd, st. rewrite app_nil_r, filter_always.
      repeat split; [apply extends_refl | exact H]. }
  destruct (PyNum.int query) as [y|]; cbn [fst snd].
  2:{ exists fd, st. rewrite filter_always.
      repeat split; [apply extends_refl | exact H]. }
  destruct ((1920 <=? y) && (y <=? 2022)); cbn [negb fst snd].
  - exists (List.length st), (st ++ [filter (fun m => year m =? y) df]).
    unfold bind, deref, alloc, ret. rewrite H, boolean_index_map, app_nil_r.
    repeat split; [now eexists | apply lookup_alloc].
  - exists fd, st. rewrite filter_always.
    repeat split; [apply extends_refl | exact H].
Qed.

Lemma rating_filter_spec query st fd df errs :
  nth_error st fd = Some df ->
  exists fd' st',
    rating_filter query fd errs st
    = (Val (fd', errs ++ snd (rating_predicate query)), st')
    /\ filtered_to st df (fst (rating_predicate query)) fd' st'.
Proof.
  intros H. unfold rating_predicate, rating_filter, valid_rating, filtered_to.
  destruct (PyStr.truthy query); cbn [fst snd].
  2:{ exists fd, st. rewrite app_nil_r, filter_always.
      repeat split; [apply extends_refl | exact H]. }
  destruct (PyNum.float_of_str query) as [v|]; cbn [fst snd].
  2:{ exists fd, st. rewrite filter_always.
      repeat split; [apply extends_refl | exact H]. }
  destruct (PyNum.fle (PyNum.of_int 1) v && PyNum.fle v (PyNum.of_int 10));
    cbn [negb fst snd].
  - exists (List.length st),
      (st ++ [filter (fun m => PyNum.fle v (rating m)) df]).
    unfold bind, deref, alloc, ret. rewrite H, boolean_index_map, app_nil_r.
    repeat split; [now eexists | apply lookup_alloc].
  - exists fd, st. rewrite filter_always.
    repeat split; [apply extends_refl | exact H].
Qed.

(** ** [search_data] is the one-pass filter *)

(** One text block in the run: either the block aborts the run, or the run
    goes on from a store where the working reference points to the rows
    filtered so far. *)
Ltac text_step E H p fd' st' X L :=
  match goal with
  | |- context [bind (text_filter ?col ?query ?fd) ?k ?st] =>
      let S := fresh "S" in
      let R := fresh "R" in
      pose proof (text_filter_spec col query st fd _ H) as S;
      destruct (text_predicate col query) as [p|?e|] eqn:E;
      [ destruct S as (fd' & st' & R & X & L);
        rewrite (bind_val _ _ _ _ _ R); clear R
      | rewrite (bind_raised _ _ _ _ _ S); cbn [rbind]
      | rewrite (bind_beyond _ _ _ _ S); cbn [rbind] ]
  end.

Ltac aborted X := eexists; split; [reflexivity | exact X].

Lemma search_data_single_pass data q st D :
  nth_error st data = Some D ->
  exists st', search_data data q st = (single_pass D q, st')
              /\ extends st st'.
Proof.
  intros H. unfold search_data, single_pass, all_blank.
  destruct (negb (PyStr.any _)).
  { exists st. split; [reflexivity | apply extends_refl]. }
  unfold query_predicate.
  text_step E1 H p1 fd1 st1 X1 L1; [| aborted (extends_refl st) ..].
  text_step E2 L1 p2 fd2 st2 X2 L2; [| aborted X1 ..].
  cbn [rbind].
  destruct (year_filter_spec (PyStr.strip (release_date_entry q)) _ _ _ [] L2)
    as (fd3 & st3 & R3 & X3 & L3).
  rewrite (bind_val _ _ _ _ _ R3); clear R3.
  destruct (year_predicate _) as [p3 e3]; cbn [fst snd] in *.
  destruct (rating_filter_spec (PyStr.strip (rating_entry q)) _ _ _
              ([] ++ e3) L3) as (fd4 & st4 & R4 & X4 & L4).
  rewrite (bind_val _ _ _ _ _ R4); clear R4.
  destruct (rating_predicate _) as [p4 e4]; cbn [fst snd] in *.
  assert (X04 : extends st st4) by eauto using extends_trans.
  text_step E5 L4 p5 fd5 st5 X5 L5; [| aborted X04 ..].
  assert (X05 : extends st st5) by eauto using extends_trans.
  text_step E6 L5 p6 fd6 st6 X6 L6; [| aborted X05 ..].
  assert (X06 : extends st st6) by eauto using extends_trans.
  cbn [rbind fst snd].
  rewrite !filter_filter in L6.
  rewrite (filter_ext _
             (fun m => p1 m && p2 m && p3 m && p4 m && p5 m && p6 m)) in L6
    by (intros; now rewrite !andb_assoc).
  exists st6. split; [| assumption].
  unfold bind, deref. rewrite L6. cbn [app].
  destruct (e3 ++ e4) as [|msg msgs]; cbn [nonempty orb negb].
  - unfold show_results, ret, search_error, rows_or_no_results.
    cbn [orb app]. destruct (empty _); reflexivity.
  - reflexivity.
Qed.

(** The outcome of a run is that of the one-pass filter. *)
Lemma run_single_pass data q st D :
  nth_error st data = Some D -> run data q st = single_pass D q.
Proof.
  intros H. destruct (search_data_single_pass data q st D H) as (st' & E & _).
  unfold run. now rewrite E.
Qed.

(** ** What a result table tells about the query *)

Lemma single_pass_table D q rows :
  single_pass D q = Val (ResultTable rows) ->
  exists p1 p2 p5 p6,
    text_predicate title (PyStr.strip (title_entry q)) = Val p1
    /\ text_predicate genre (PyStr.strip (genre_entry q)) = Val p2
    /\ text_predicate actors (PyStr.strip (actor_entry q)) = Val p5
    /\ text_predicate director (PyStr.strip (director_entry q)) = Val p6
    /\ snd (year_predicate (PyStr.strip (release_date_entry q))) = []
    /\ snd (rating_predicate (PyStr.strip (rating_entry q))) = []
    /\ rows = filter (fun m =>
                p1 m && p2 m
                && fst (year_predicate (PyStr.strip (release_date_entry q))) m
                && fst (rating_predicate (PyStr.strip (rating_entry q))) m
                && p5 m && p6 m) D.
Proof.
  unfold single_pass, query_predicate.
  destruct (all_blank q); [discriminate|].
  destruct (text_predicate title _) as [p1| |]; try discriminate.
  destruct (text_predicate genre _) as [p2| |]; try discriminate.
  cbn [rbind].
  destruct (year_predicate _) as [p3 e3].
  destruct (rating_predicate _) as [p4 e4].
  destruct (text_predicate actors _) as [p5| |]; try discriminate.
  destruct (text_predicate director _) as [p6| |]; try discriminate.
  cbn [rbind fst snd].
  destruct (e3 ++ e4) as [|msg msgs] eqn:E; [|discriminate].
  apply app_eq_nil in E as [-> ->].
  unfold rows_or_no_results. destruct (empty _); [discriminate|].
  intros [= <-]. exists p1, p2, p5, p6. repeat split; reflexivity.
Qed.

Lemma text_predicate_missing column query p m :
  text_predicate column query = Val p ->
  PyStr.truthy query = true -> column m = None -> p m = false.
Proof.
  unfold text_predicate. intros H T N. rewrite T in H.
  destruct (PyRe.compile query); try discriminate.
  injection H as <-. now rewrite N.
Qed.

Lemma year_predicate_valid query :
  PyStr.truthy query = true ->
  snd (year_predicate query) = [] ->
  exists y, PyNum.int query = Some y /\ valid_year y = true
            /\ fst (year_predicate query) = (fun m => year m =? y).
Proof.
  unfold year_predicate. intros -> H.
  destruct (PyNum.int query) as [y|]; [|discriminate].
  destruct (valid_year y) eqn:V; [|discriminate].
  now exists y.
Qed.

Lemma rating_predicate_valid query :
  PyStr.truthy query = true ->
  snd (rating_predicate query) = [] ->
  exists v, PyNum.float_of_str query = Some v /\ valid_rating v = true
            /\ fst (rating_predicate query)
               = (fun m => PyNum.fle v (rating m)).
Proof.
  unfold rating_predicate. intros -> H.
  destruct (PyNum.float_of_str query) as [v|]; [|discriminate].
  destruct (valid_rating v) eqn:V; [|discriminate].
  now exists v.
Qed.

Lemma year_predicate_messages query :
  snd (year_predicate query) = []
  \/ exists m, invalid_year_msg m /\ year_predicate query = (always, [m]).
Proof.
  unfold year_predicate, invalid_year_msg.
  destruct (PyStr.truthy query); [|now left].
  destruct (PyNum.int query) as [y|]; [destruct (valid_year y)|]; eauto.
Qed.

Lemma rating_predicate_messages query :
  snd (rating_predicate query) = []
  \/ exists m, invalid_rating_msg m /\ rating_predicate query = (always, [m]).
Proof.
  unfold rating_predicate, invalid_rating_msg.
  destruct (PyStr.truthy query); [|now left].
  destruct (PyNum.float_of_str query) as [v|]; [destruct (valid_rating v)|];
    eauto.
Qed.

(** With a message from a numeric field, no run ends in a result table. *)
Lemma invalid_field_no_table data q st D rows :
  nth_error st data = Some D ->
  snd (year_predicate (PyStr.strip (release_date_entry q))) <> []
  \/ snd (rating_predicate (PyStr.strip (rating_entry q))) <> [] ->
  run data q st <> Val (ResultTable rows).
Proof.
  intros H E R. rewrite (run_single_pass _ _ _ _ H) in R.
  apply single_pass_table in R
    as (p1 & p2 & p5 & p6 & _ & _ & _ & _ & Y & T & _).
  tauto.
Qed.

(** When the text fields compile, the run reports every message of the
    numeric fields, the year's first. *)
Lemma invalid_field_report data q st D p1 p2 p5 p6 :
  nth_error st data = Some D ->
  all_blank q = false ->
  text_predicate title (PyStr.strip (title_entry q)) = Val p1 ->
  text_predicate genre (PyStr.strip (genre_entry q)) = Val p2 ->
  text_predicate actors (PyStr.strip (actor_entry q)) = Val p5 ->
  text_predicate director (PyStr.strip (director_entry q)) = Val p6 ->
  snd (year_predicate (PyStr.strip (release_date_entry q)))
  ++ snd (rating_predicate (PyStr.strip (rating_entry q))) <> [] ->
  run data q st
  = Val (search_error
           (snd (year_predicate (PyStr.strip (release_date_entry q)))
            ++ snd (rating_predicate (PyStr.strip (rating_entry q))))).
Proof.
  intros H B E1 E2 E5 E6 N. rewrite (run_single_pass _ _ _ _ H).
  unfold single_pass, query_predicate. rewrite B, E1, E2. cbn [rbind].
  destruct (year_predicate _) as [p3 e3].
  destruct (rating_predicate _) as [p4 e4].
  rewrite E5, E6. cbn [rbind fst snd] in *.
  destruct (e3 ++ e4); [congruence | reflexivity].
Qed.

(** ** The patterns of the fragment: what they match *)

Module PyReFacts.
Import PyStr PyRe.

#[local] Hint Constructors matches : core.

Lemma matches_empty_inv w : matches Empty w -> w = [].
Proof. now inversion 1. Qed.

Lemma matches_lit_inv a w :
  matches (Lit a) w -> exists c, w = [c] /\ lower a = lower c.
Proof. inversion 1; subst; eauto. Qed.

Lemma matches_any_inv w :
  matches AnyChar w -> exists c, w = [c] /\ code c <> 10.
Proof. inversion 1; subst; eauto. Qed.

Lemma matches_seq_inv r1 r2 w :
  matches (Seq r1 r2) w ->
  exists w1 w2, w = w1 ++ w2 /\ matches r1 w1 /\ matches r2 w2.
Proof. inversion 1; subst; eauto. Qed.

Lemma matches_alt_inv r1 r2 w :
  matches (Alt r1 r2) w -> matches r1 w \/ matches r2 w.
Proof. inversion 1; subst; auto. Qed.

Lemma nullable_spec r : nullable r = true <-> matches r [].
Proof.
  induction r as [| | a | | r1 IH1 r2 IH2 | r1 IH1 r2 IH2]; cbn.
  - split; [discriminate | inversion 1].
  - split; auto.
  - split; [discriminate | inversion 1].
  - split; [discriminate | inversion 1].
  - rewrite andb_true_iff, IH1, IH2. split.
    + intros [H1 H2]. change (@nil ascii) with (@nil ascii ++ []). auto.
    + intros H. apply matches_seq_inv in H as (w1 & w2 & E & H1 & H2).
      symmetry in E. apply app_eq_nil in E as [-> ->]. auto.
  - rewrite orb_true_iff, IH1, IH2. split.
    + intros [H | H]; auto.
    + intros H. now apply matches_alt_inv in H.
Qed.

Lemma matches_seq_cons r1 r2 c w :
  matches (Seq r1 r2) (c :: w) <->
  (exists w1 w2, w = w1 ++ w2 /\ matches r1 (c :: w1) /\ matches r2 w2)
  \/ (matches r1 [] /\ matches r2 (c :: w)).
Proof.
  split.
  - intros H. apply matches_seq_inv in H as (w1 & w2 & E & H1 & H2).
    destruct w1 as [|a w1]; cbn in E.
    + right. subst. auto.
    + left. injection E as -> ->. eauto.
  - intros [(w1 & w2 & -> & H1 & H2) | [H1 H2]].
    + change (c :: w1 ++ w2) with ((c :: w1) ++ w2). auto.
    + change (c :: w) with ([] ++ c :: w). auto.
Qed.

Lemma deriv_spec c r : forall w, matches (deriv c r) w <-> matches r (c :: w).
Proof.
  induction r as [| | a | | r1 IH1 r2 IH2 | r1 IH1 r2 IH2]; intros w; cbn.
  - split; inversion 1.
  - split; inversion 1.
  - destruct (Ascii.eqb_spec (lower a) (lower c)) as [E | E].
    + split; intros H.
      * apply matches_empty_inv in H as ->. auto.
      * apply matches_lit_inv in H as (c' & [= <- ->] & _). auto.
    + split; intros H.
      * inversion H.
      * apply matches_lit_inv in H as (c' & [= <- ->] & E'). contradiction.
  - destruct (Z.eqb_spec (code c) 10) as [E | E].
    + split; intros H.
      * inversion H.
      * apply matches_any_inv in H as (c' & [= <- ->] & E'). contradiction.
    + split; intros H.
      * apply matches_empty_inv in H as ->. auto.
      * apply matches_any_inv in H as (c' & [= <- ->] & _). auto.
  - rewrite matches_seq_cons.
    destruct (nullable r1) eqn:N.
    + split.
      * intros H. apply matches_alt_inv in H as [H | H].
        -- apply matches_seq_inv in H as (w1 & w2 & -> & G1 & G2).
           left. exists w1, w2. rewrite <- IH1. auto.
        -- right. rewrite <- nullable_spec, <- IH2. auto.
      * intros [(w1 & w2 & -> & H1 & H2) | [H1 H2]].
        -- apply m_alt_l. apply m_seq; [now apply IH1 | assumption].
        -- apply m_alt_r. now apply IH2.
    + split.
      * intros H. apply matches_seq_inv in H as (w1 & w2 & -> & G1 & G2).
        left. exists w1, w2. rewrite <- IH1. auto.
      * intros [(w1 & w2 & -> & H1 & H2) | [H1 H2]].
        -- apply m_seq; [now apply IH1 | assumption].
        -- apply nullable_spec in H1. congruence.
  - split; intros H; apply matches_alt_inv in H as [H | H];
      [ apply m_alt_l; now apply IH1 | apply m_alt_r; now apply IH2
      | apply m_alt_l; now apply IH1 | apply m_alt_r; now apply IH2 ].
Qed.

(** [match_here]: some prefix of the text is matched in full. *)
Lemma match_here_spec l : forall r,
  match_here r l = true <-> exists w rest, l = w ++ rest /\ matches r w.
Proof.
  induction l as [|c l IH]; intros r; cbn.
  - rewrite orb_false_r, nullable_spec. split.
    + intros H. now exists [], [].
    + intros (w & rest & E & H). symmetry in E.
      apply app_eq_nil in E as [-> _]. assumption.
  - rewrite orb_true_iff, nullable_spec, IH. split.
    + intros [H | (w & rest & -> & H)].
      * now exists [], (c :: l).
      * exists (c :: w), rest. split; [reflexivity | now apply deriv_spec].
    + intros (w & rest & E & H). destruct w as [|a w]; [now left|].
      right. cbn in E. injection E as <- ->.
      exists w, rest. split; [reflexivity | now apply deriv_spec].
Qed.

Lemma matches_literal l : forall acc w,
  matches (literal acc l) w <->
  exists w1 w2, w = w1 ++ w2 /\ matches acc w1 /\ ieq l w2.
Proof.
  unfold ieq. induction l as [|a l IH]; intros acc w.
  - change (literal acc []) with acc. split.
    + intros H. exists w, []. rewrite app_nil_r. auto.
    + intros (w1 & w2 & -> & H & F). inversion F. now rewrite app_nil_r.
  - change (literal acc (a :: l)) with (literal (Seq acc (Lit a)) l).
    rewrite IH. split.
    + intros (w1 & w2 & -> & H & F).
      apply matches_seq_inv in H as (u & v & -> & G1 & G2).
      apply matches_lit_inv in G2 as (c & -> & E). exists u, (c :: w2).
      rewrite <- app_assoc. auto.
    + intros (w1 & w2 & -> & H & F).
      inversion F as [|? c ? w2' E F']; subst.
      exists (w1 ++ [c]), w2'. rewrite <- app_assoc. auto.
Qed.

Lemma iprefix_spec q : forall s,
  iprefix q s = true <-> exists w rest, s = w ++ rest /\ ieq q w.
Proof.
  unfold ieq. induction q as [|a q IH]; intros s; cbn.
  - split; [|reflexivity]. intros _. exists [], s. auto.
  - destruct s as [|c s].
    + split; [discriminate|]. intros (w & rest & E & F).
      inversion F; subst. discriminate.
    + rewrite andb_true_iff, IH. split.
      * intros [E (w & rest & -> & F)].
        apply Ascii.eqb_eq in E. exists (c :: w), rest. auto.
      * intros (w & rest & E & F). inversion F as [|? c' ? w' E' F']; subst.
        cbn in E. injection E as -> ->. split.
        -- now apply Ascii.eqb_eq.
        -- eauto.
Qed.

Lemma match_here_literal q s :
  match_here (literal Empty q) s = iprefix q s.
Proof.
  apply eq_true_iff_eq. rewrite match_here_spec, iprefix_spec.
  split; intros (w & rest & -> & H); exists w, rest; split; auto.
  - apply matches_literal in H as (w1 & w2 & -> & H1 & F).
    apply matches_empty_inv in H1 as ->. assumption.
  - apply matches_literal. exists [], w. auto.
Qed.

Lemma search_literal q s :
  search_chars (literal Empty q) s = icontains_chars q s.
Proof.
  induction s as [|c s IH]; cbn -[match_here iprefix];
    rewrite match_here_literal; [reflexivity | now rewrite IH].
Qed.

Lemma special_false c :
  special c = false ->
  beyond_fragment c = false /\ (code c =? 40) = false
  /\ (code c =? 41) = false /\ (code c =? 124) = false
  /\ (code c =? 46) = false.
Proof.
  unfold special. cbv zeta. intros H.
  do 4 (apply orb_false_elim in H as [H ?]). repeat split; assumption.
Qed.

Lemma parse_plain l : forall cur,
  existsb special l = false ->
  parse l cur [] = Pattern (close (fst cur, literal (snd cur) l)).
Proof.
  induction l as [|c l IH]; intros [a s] H; cbn in *.
  - reflexivity.
  - apply orb_false_elim in H as [Hc Hl].
    apply special_false in Hc as (_ & -> & -> & -> & ->).
    rewrite (IH _ Hl). reflexivity.
Qed.

Lemma compile_plain q :
  existsb special (chars q) = false ->
  compile q = Pattern (literal Empty (chars q)).
Proof.
  intros H. unfold compile.
  assert (B : existsb beyond_fragment (chars q) = false).
  { revert H. induction (chars q) as [|c l IH]; cbn; [reflexivity|].
    intros H. apply orb_false_elim in H as [Hc Hl].
    apply special_false in Hc as [-> _]. now apply IH. }
  rewrite B. now rewrite parse_plain.
Qed.

End PyReFacts.

(** ** Queries with one numeric field *)

Lemma single_pass_year_only D e :
  PyStr.truthy (PyStr.strip e) = true ->
  single_pass D (year_only e)
  = Val (match snd (year_predicate (PyStr.strip e)) with
         | [] => rows_or_no_results
                   (filter (fst (year_predicate (PyStr.strip e))) D)
         | msg :: msgs => search_error (msg :: msgs)
         end).
Proof.
  intros T. unfold single_pass, all_blank, query_predicate, year_only.
  cbn [title_entry genre_entry release_date_entry rating_entry actor_entry
       director_entry].
  change (PyStr.strip "") with "". cbn [PyStr.any existsb PyStr.truthy].
  rewrite T. cbn [orb negb text_predicate PyStr.truthy rbind].
  destruct (year_predicate _) as [p3 e3].
  cbn [rating_predicate PyStr.truthy rbind fst snd].
  rewrite app_nil_r. destruct e3; [|reflexivity].
  f_equal. f_equal. apply filter_ext. intros m. unfold always. cbn.
  now rewrite !andb_true_r.
Qed.

Lemma single_pass_rating_only D e :
  PyStr.truthy (PyStr.strip e) = true ->
  single_pass D (rating_only e)
  = Val (match snd (rating_predicate (PyStr.strip e)) with
         | [] => rows_or_no_results
                   (filter (fst (rating_predicate (PyStr.strip e))) D)
         | msg :: msgs => search_error (msg :: msgs)
         end).
Proof.
  intros T. unfold single_pass, all_blank, query_predicate, rating_only.
  cbn [title_entry genre_entry release_date_entry rating_entry actor_entry
       director_entry].
  change (PyStr.strip "") with "". cbn [PyStr.any existsb PyStr.truthy].
  rewrite T. cbn [orb negb text_predicate PyStr.truthy rbind year_predicate].
  destruct (rating_predicate _) as [p4 e4].
  cbn [rbind fst snd app]. destruct e4; [|reflexivity].
  f_equal. f_equal. apply filter_ext. intros m. unfold always. cbn.
  now rewrite !andb_true_r.
Qed.

Lemma valid_year_range y : valid_year y = true <-> 1920 <= y <= 2022.
Proof. unfold valid_year. rewrite andb_true_iff, !Z.leb_le. tauto. Qed.

Lemma valid_rating_range v : valid_rating v = true <-> rating_in_range v.
Proof.
  unfold valid_rating, rating_in_range, PyNum.of_int. split.
  - destruct v as [| [|] | x]; cbn; try discriminate.
    rewrite andb_true_iff, !Qle_bool_iff. intros [L U]. now exists x.
  - intros (x & -> & L & U). cbn.
    rewrite andb_true_iff, !Qle_bool_iff. now split.
Qed.

Lemma str_contains_missing col pat mask i :
  str_contains col pat = Val mask ->
  nth_error col i = Some None -> nth_error mask i = Some false.
Proof.
  unfold str_contains. destruct (PyRe.compile pat); try discriminate.
  intros [= <-] H. rewrite nth_error_map, H. reflexivity.
Qed.

Lemma filter_In_year y (df : DataFrame) m :
  In m (filter (fun m => year m =? y) df) <-> In m df /\ year m = y.
Proof. now rewrite filter_In, Z.eqb_eq. Qed.

(** In any table shown for a query with the year field filled in, the year
    was accepted and every row has that year. *)
Lemma shown_rows_year data q st D rows :
  nth_error st data = Some D ->
  PyStr.truthy (PyStr.strip (release_date_entry q)) = true ->
  run data q st = Val (ResultTable rows) ->
  exists y, PyNum.int (PyStr.strip (release_date_entry q)) = Some y
            /\ 1920 <= y <= 2022
            /\ forall m, In m rows -> In m D /\ year m = y.
Proof.
  intros H T R. rewrite (run_single_pass _ _ _ _ H) in R.
  apply single_pass_table in R
    as (p1 & p2 & p5 & p6 & _ & _ & _ & _ & Y & _ & ->).
  destruct (year_predicate_valid _ T Y) as (y & I & V & F).
  exists y. split; [exact I|]. split; [now apply valid_year_range|].
  intros m G. apply filter_In in G as [G C]. split; [exact G|].
  rewrite F in C. apply Z.eqb_eq.
  repeat (apply andb_true_iff in C as [C ?]). assumption.
Qed.

(** In any table shown for a query with the rating field filled in, the
    rating was accepted and every row has at least that rating. *)
Lemma shown_rows_rating data q st D rows :
  nth_error st data = Some D ->
  PyStr.truthy (PyStr.strip (rating_entry q)) = true ->
  run data q st = Val (ResultTable rows) ->
  exists v, PyNum.float_of_str (PyStr.strip (rating_entry q)) = Some v
            /\ rating_in_range v
            /\ forall m, In m rows ->
                         In m D /\ PyNum.fle v (rating m) = true.
Proof.
  intros H T R. rewrite (run_single_pass _ _ _ _ H) in R.
  apply single_pass_table in R
    as (p1 & p2 & p5 & p6 & _ & _ & _ & _ & _ & Y & ->).
  destruct (rating_predicate_valid _ T Y) as (v & I & V & F).
  exists v. split; [exact I|]. split; [now apply valid_rating_range|].
  intros m G. apply filter_In in G as [G C]. split; [exact G|].
  rewrite F in C.
  repeat (apply andb_true_iff in C as [C ?]). assumption.
Qed.

(** When the run reports [msg_no_results]: the query is not blank, every
    field gives a predicate and no message, and no row satisfies them all. *)
Lemma no_results_iff data q st D :
  nth_error st data = Some D ->
  run data q st = Val (search_error [msg_no_results]) <->
  all_blank q = false
  /\ exists p, query_predicate q = Val (p, []) /\ filter p D = [].
Proof.
  intros H. rewrite (run_single_pass _ _ _ _ H). unfold single_pass. split.
  - destruct (all_blank q); [discriminate|]. intros R. split; [reflexivity|].
    destruct (query_predicate q) as [[p errs]| |] eqn:Q; try discriminate.
    cbn [rbind fst snd] in R. exists p.
    assert (E : errs = []).
    { destruct errs as [|msg msgs]; [reflexivity|]. exfalso.
      unfold query_predicate in Q.
      destruct (text_predicate title _); try discriminate.
      destruct (text_predicate genre _); try discriminate.
      cbn [rbind] in Q.
      destruct (year_predicate_messages
                  (PyStr.strip (release_date_entry q)))
        as [Y | (my & [-> | ->] & Y)];
      destruct (rating_predicate_messages (PyStr.strip (rating_entry q)))
        as [T | (mr & [-> | ->] & T)];
      destruct (year_predicate _) as [p3 e3];
      destruct (rating_predicate _) as [p4 e4]; cbn [snd] in *;
      destruct (text_predicate actors _); try discriminate;
      destruct (text_predicate director _); try discriminate;
      cbn [rbind] in Q; injection Q as _ Q;
      try injection Y as _ Y; try injection T as _ T; subst;
      cbn in Q; try discriminate Q; rewrite <- Q in R;
      vm_compute in R; discriminate R. }
    subst errs. split; [reflexivity|].
    unfold rows_or_no_results in R.
    now destruct (filter p D).
  - intros (-> & p & -> & E). cbn [rbind fst snd]. now rewrite E.
Qed.

(** ** Text fields: what holds for every query *)

(** A field left blank puts no condition on the rows. *)
Lemma text_predicate_blank column e :
  is_blank e = true -> text_predicate column (PyStr.strip e) = Val always.
Proof.
  unfold is_blank. intros H. apply strip_blank in H. now rewrite H.
Qed.

(** A query without special characters keeps the rows whose text contains
    it, letters compared without case. *)
Lemma text_predicate_plain column q :
  PyStr.truthy q = true ->
  existsb PyRe.special (PyStr.chars q) = false ->
  exists p, text_predicate column q = Val p
            /\ forall m, p m = match column m with
                             | Some s => icontains q s
                             | None => false
                             end.
Proof.
  intros T P. unfold text_predicate. rewrite T.
  rewrite (PyReFacts.compile_plain q P). eexists. split; [reflexivity|].
  intros m. cbv beta. destruct (column m) as [s|]; [|reflexivity].
  apply PyReFacts.search_literal.
Qed.

(** The title query "matrix" keeps a row titled "The Matrix Reloaded". *)
Lemma matrix_title_example :
  exists p, text_predicate title (PyStr.strip "matrix") = Val p
            /\ forall m, title m = Some "The Matrix Reloaded" -> p m = true.
Proof.
  eexists. split; [reflexivity|]. intros m E. cbv beta. rewrite E.
  vm_compute. reflexivity.
Qed.

(** When the text fields compile and both numeric fields are rejected, the
    report holds the year's message and then the rating's. *)
Lemma both_messages_reported data q st D p1 p2 p5 p6 my mr :
  nth_error st data = Some D ->
  text_predicate title (PyStr.strip (title_entry q)) = Val p1 ->
  text_predicate genre (PyStr.strip (genre_entry q)) = Val p2 ->
  text_predicate actors (PyStr.strip (actor_entry q)) = Val p5 ->
  text_predicate director (PyStr.strip (director_entry q)) = Val p6 ->
  snd (year_predicate (PyStr.strip (release_date_entry q))) = [my] ->
  snd (rating_predicate (PyStr.strip (rating_entry q))) = [mr] ->
  run data q st = Val (search_error [my; mr]).
Proof.
  intros H E1 E2 E5 E6 Y R.
  assert (B : all_blank q = false).
  { unfold all_blank. cbn [PyStr.any existsb].
    destruct (PyStr.truthy (PyStr.strip (release_date_entry q))) eqn:T.
    - now rewrite !orb_true_r.
    - unfold year_predicate in Y. rewrite T in Y. discriminate. }
  rewrite (invalid_field_report data q st D p1 p2 p5 p6 H B E1 E2 E5 E6);
    rewrite Y, R; [reflexivity | discriminate].
Qed.

(** ** The types of the text columns: facts *)

Lemma text_filter_typed_on_text d column query fd st :
  field_on_text query d ->
  text_filter_typed d column query fd st = text_filter column query fd st.
Proof.
  unfold text_filter_typed, text_filter. intros [T | ->].
  - now rewrite T.
  - destruct (PyStr.truthy query); [| reflexivity].
    unfold bind, deref, lift, str_accessor.
    destruct (nth_error st fd); reflexivity.
Qed.

(** Where every field that is filled in is on an object column, the program
    with column types is [search_data]. *)
Lemma search_data_typed_on_text types data q st :
  field_on_text (PyStr.strip (title_entry q)) (title_dtype types) ->
  field_on_text (PyStr.strip (genre_entry q)) (genre_dtype types) ->
  field_on_text (PyStr.strip (actor_entry q)) (actors_dtype types) ->
  field_on_text (PyStr.strip (director_entry q)) (director_dtype types) ->
  search_data_typed types data q st = search_data data q st.
Proof.
  intros F1 F2 F5 F6. unfold search_data_typed, search_data.
  destruct (negb (PyStr.any _)); [reflexivity|].
  unfold bind.
  rewrite (text_filter_typed_on_text _ _ _ _ _ F1).
  destruct (text_filter title _ data st) as [[fd1| |] st1]; try reflexivity.
  rewrite (text_filter_typed_on_text _ _ _ _ _ F2).
  destruct (text_filter genre _ fd1 st1) as [[fd2| |] st2]; try reflexivity.
  destruct (year_filter _ fd2 [] st2) as [[[fd3 e3]| |] st3];
    try reflexivity.
  destruct (rating_filter _ fd3 e3 st3) as [[[fd4 e4]| |] st4];
    try reflexivity.
  rewrite (text_filter_typed_on_text _ _ _ _ _ F5).
  destruct (text_filter actors _ fd4 st4) as [[fd5| |] st5];
    try reflexivity.
  rewrite (text_filter_typed_on_text _ _ _ _ _ F6).
  reflexivity.
Qed.

Lemma search_data_typed_object_columns data q st :
  search_data_typed object_columns data q st = search_data data q st.
Proof. apply search_data_typed_on_text; right; reflexivity. Qed.

Lemma text_filter_typed_no_value d column query fd st :
  PyStr.truthy query = true -> d <> object_dtype ->
  (forall df, nth_error st fd = Some df ->
     text_filter_typed d column query fd st = (Raised AttributeError, st))
  /\ forall fd', fst (text_filter_typed d column query fd st) <> Val fd'.
Proof.
  intros T N. unfold text_filter_typed. rewrite T.
  unfold bind, deref, lift, str_accessor. split.
  - intros df ->. destruct d; [contradiction | reflexivity | reflexivity].
  - intros fd'. destruct (nth_error st fd); [| discriminate].
    destruct d; [contradiction | discriminate | discriminate].
Qed.

(** On a loaded table whose title column is all missing, every search with
    the title field filled in ends in [AttributeError], before anything
    else is looked at. *)
Lemma all_missing_title_raises types data q st D :
  nth_error st data = Some D ->
  as_loaded D types ->
  all_missing (map title D) = true ->
  PyStr.truthy (PyStr.strip (title_entry q)) = true ->
  search_data_typed types data q st = (Raised AttributeError, st).
Proof.
  intros H (L & _) A T. unfold search_data_typed.
  cbn [PyStr.any existsb]. rewrite T. cbn [orb negb].
  unfold bind at 1.
  assert (N : title_dtype types <> object_dtype)
    by (rewrite (L A); discriminate).
  now rewrite (proj1 (text_filter_typed_no_value _ title _ data st T N) D H).
Qed.

(** A search with a field filled in whose column is not an object column
    never completes. *)
Lemma field_off_text_never_completes types data q st o :
  (PyStr.truthy (PyStr.strip (title_entry q)) = true
   /\ title_dtype types <> object_dtype)
  \/ (PyStr.truthy (PyStr.strip (genre_entry q)) = true
      /\ genre_dtype types <> object_dtype)
  \/ (PyStr.truthy (PyStr.strip (actor_entry q)) = true
      /\ actors_dtype types <> object_dtype)
  \/ (PyStr.truthy (PyStr.strip (director_entry q)) = true
      /\ director_dtype types <> object_dtype) ->
  run_typed types data q st <> Val o.
Proof.
  intros C. unfold run_typed, search_data_typed.
  assert (B : PyStr.any [PyStr.strip (title_entry q);
                         PyStr.strip (genre_entry q);
                         PyStr.strip (release_date_entry q);
                         PyStr.strip (rating_entry q);
                         PyStr.strip (actor_entry q);
                         PyStr.strip (director_entry q)] = true).
  { cbn [PyStr.any existsb].
    destruct C as [[T _] | [[T _] | [[T _] | [T _]]]]; rewrite T;
      now rewrite ?orb_true_r. }
  rewrite B. cbn [negb]. unfold bind.
  destruct (text_filter_typed (title_dtype types) title _ data st)
    as [[fd1| |] st1] eqn:E1; try discriminate.
  destruct (text_filter_typed (genre_dtype types) genre _ fd1 st1)
    as [[fd2| |] st2] eqn:E2; try discriminate.
  destruct (year_filter _ fd2 [] st2) as [[[fd3 e3]| |] st3];
    try discriminate.
  destruct (rating_filter _ fd3 e3 st3) as [[[fd4 e4]| |] st4];
    try discriminate.
  destruct (text_filter_typed (actors_dtype types) actors _ fd4 st4)
    as [[fd5| |] st5] eqn:E5; try discriminate.
  destruct (text_filter_typed (director_dtype types) director _ fd5 st5)
    as [[fd6| |] st6] eqn:E6; try discriminate.
  exfalso.
  destruct C as [[T N] | [[T N] | [[T N] | [T N]]]].
  - apply (proj2 (text_filter_typed_no_value _ title _ data st T N) fd1).
    now rewrite E1.
  - apply (proj2 (text_filter_typed_no_value _ genre _ fd1 st1 T N) fd2).
    now rewrite E2.
  - apply (proj2 (text_filter_typed_no_value _ actors _ fd4 st4 T N) fd5).
    now rewrite E5.
  - apply (proj2 (text_filter_typed_no_value _ director _ fd5 st5 T N) fd6).
    now rewrite E6.
Qed.

(** On object columns a missing cell is a non-match: the mask of
    [str.contains] is false there, also for a pattern that matches the
    empty text, and a row whose title, genre, actors or director is missing
    is in no table shown for a query with that field filled in. *)
Lemma missing_text_never_shown :
  (forall col pat mask i,
     str_contains col pat = Val mask ->
     nth_error col i = Some None -> nth_error mask i = Some false)
  /\ str_contains [Some ""; None] "()" = Val [true; false]
  /\ (forall data q st D rows m,
        nth_error st data = Some D ->
        run data q st = Val (ResultTable rows) ->
        In m rows ->
        (PyStr.strip (title_entry q) <> "" -> title m <> None)
        /\ (PyStr.strip (genre_entry q) <> "" -> genre m <> None)
        /\ (PyStr.strip (actor_entry q) <> "" -> actors m <> None)
        /\ (PyStr.strip (director_entry q) <> "" -> director m <> None)).
Proof.
  split; [exact str_contains_missing|].
  split; [vm_compute; reflexivity|].
  intros data q st D rows m H R I.
  rewrite (run_single_pass _ _ _ _ H) in R.
  apply single_pass_table in R
    as (p1 & p2 & p5 & p6 & E1 & E2 & E5 & E6 & _ & _ & ->).
  apply filter_In in I as [_ I].
  repeat (apply andb_true_iff in I as [I ?]).
  assert (G : forall column query p,
             text_predicate column query = Val p -> p m = true ->
             query <> "" -> column m <> None).
  { intros column query p E P Q N.
    rewrite (text_predicate_missing column query p m E) in P;
      [discriminate | | exact N].
    destruct query; [contradiction | reflexivity]. }
  repeat split; eauto.
Qed.

(** * The claims *)

(** C1 (as the code runs it): with year "1800" the message for an invalid
    year is gathered, and with director "(" the same call then ends in an
    uncaught [re.error]: nothing is reported, neither the gathered message
    nor a table. *)
Theorem C1_gathered_message_lost_to_exception :
  year_filter (PyStr.strip "1800") 0%nat [] [[inception]]
  = (Val (0%nat, [msg_year_range]), [[inception]])
  /\ search_data 0%nat (mkQuery "" "" "1800" "" "" "(") [[inception]]
     = (Raised re_error, [[inception]]).
Proof. split; vm_compute; reflexivity. Qed.

(** C2: for a non-empty year text, [int] giving a value in 1920..2022 makes
    the block filter on equality of the year (a row is kept exactly when its
    year is that value); a value out of range or a text [int] rejects adds
    one message for the year and leaves the working table as it was.  A
    query with the year field alone reports or filters accordingly; whatever
    the other fields are, a table is shown only for an accepted year and
    holds only rows of that year; and on the one-row Inception table year
    "1800" gives the year message alone. *)
Theorem C2_year_field_equality_or_message e st fd df errs data D :
  PyStr.truthy (PyStr.strip e) = true ->
  nth_error st fd = Some df ->
  nth_error st data = Some D ->
  let s := PyStr.strip e in
  (forall y, PyNum.int s = Some y -> 1920 <= y <= 2022 ->
     year_filter s fd errs st
     = (Val (List.length st, errs),
        st ++ [filter (fun m => year m =? y) df])
     /\ (forall m, In m (filter (fun m => year m =? y) df)
                   <-> In m df /\ year m = y)
     /\ run data (year_only e) st
        = Val (rows_or_no_results (filter (fun m => year m =? y) D)))
  /\ (forall y, PyNum.int s = Some y -> ~ 1920 <= y <= 2022 ->
        year_filter s fd errs st = (Val (fd, errs ++ [msg_year_range]), st)
        /\ run data (year_only e) st = Val (search_error [msg_year_range]))
  /\ (PyNum.int s = None ->
        year_filter s fd errs st = (Val (fd, errs ++ [msg_year_int]), st)
        /\ run data (year_only e) st = Val (search_error [msg_year_int]))
  /\ (forall q rows,
        release_date_entry q = e ->
        run data q st = Val (ResultTable rows) ->
        exists y, PyNum.int s = Some y /\ 1920 <= y <= 2022
                  /\ forall m, In m rows -> In m D /\ year m = y)
  /\ run 0%nat (year_only "1800") [[inception]]
     = Val (search_error [msg_year_range]).
Proof.
  intros T Hfd Hdata s.
  pose proof (run_single_pass data (year_only e) st D Hdata) as R.
  rewrite (single_pass_year_only D e T) in R. fold s in R, T.
  unfold year_predicate in R. rewrite T in R.
  split; [| split; [| split; [| split]]].
  - intros y I V. apply valid_year_range in V. rewrite I, V in R.
    split; [| split; [apply filter_In_year | exact R]].
    unfold year_filter. rewrite T, I. unfold valid_year in V. rewrite V.
    cbn [negb]. unfold bind, deref, alloc, ret.
    now rewrite Hfd, boolean_index_map.
  - intros y I V.
    destruct (valid_year y) eqn:V'; [apply valid_year_range in V'; tauto|].
    rewrite I, V' in R. split; [| exact R].
    unfold year_filter. rewrite T, I. unfold valid_year in V'.
    now rewrite V'.
  - intros I. rewrite I in R. split; [| exact R].
    unfold year_filter. now rewrite T, I.
  - intros q rows <- G. now apply (shown_rows_year data q st D rows).
  - vm_compute. reflexivity.
Qed.

Lemma C2_year_field_witness :
  run 0%nat (year_only " 2010 ") [[inception]]
  = Val (rows_or_no_results (filter (fun m => year m =? 2010) [inception])).
Proof.
  apply (proj1 (C2_year_field_equality_or_message
                  " 2010 " [[inception]] 0%nat [inception] [] 0%nat
                  [inception] eq_refl eq_refl eq_refl) 2010);
    [reflexivity | lia].
Defined.

(** C3: for a non-empty rating text, [float] giving a real number between 1
    and 10 makes the block keep exactly the rows whose rating is at least
    that number; any other value, or a text [float] rejects, adds one
    message for the rating and leaves the working table as it was.  A query
    with the rating field alone reports or filters accordingly; whatever the
    other fields are, a table is shown only for an accepted rating and holds
    only rows with at least that rating; and on the one-row Inception table
    (rating 8.8) year "2010" with rating "8" shows that row. *)
Theorem C3_rating_field_lower_bound_or_message e st fd df errs data D :
  PyStr.truthy (PyStr.strip e) = true ->
  nth_error st fd = Some df ->
  nth_error st data = Some D ->
  let s := PyStr.strip e in
  (forall v, PyNum.float_of_str s = Some v -> rating_in_range v ->
     rating_filter s fd errs st
     = (Val (List.length st, errs),
        st ++ [filter (fun m => PyNum.fle v (rating m)) df])
     /\ (forall m, In m (filter (fun m => PyNum.fle v (rating m)) df)
                   <-> In m df /\ PyNum.fle v (rating m) = true)
     /\ run data (rating_only e) st
        = Val (rows_or_no_results
                 (filter (fun m => PyNum.fle v (rating m)) D)))
  /\ (forall v, PyNum.float_of_str s = Some v -> ~ rating_in_range v ->
        rating_filter s fd errs st
        = (Val (fd, errs ++ [msg_rating_range]), st)
        /\ run data (rating_only e) st
           = Val (search_error [msg_rating_range]))
  /\ (PyNum.float_of_str s = None ->
        rating_filter s fd errs st
        = (Val (fd, errs ++ [msg_rating_float]), st)
        /\ run data (rating_only e) st
           = Val (search_error [msg_rating_float]))
  /\ (forall q rows,
        rating_entry q = e ->
        run data q st = Val (ResultTable rows) ->
        exists v, PyNum.float_of_str s = Some v /\ rating_in_range v
                  /\ forall m, In m rows ->
                               In m D /\ PyNum.fle v (rating m) = true)
  /\ run 0%nat year_2010_rating_8 [[inception]]
     = Val (ResultTable [inception]).
Proof.
  intros T Hfd Hdata s.
  pose proof (run_single_pass data (rating_only e) st D Hdata) as R.
  rewrite (single_pass_rating_only D e T) in R. fold s in R, T.
  unfold rating_predicate in R. rewrite T in R.
  split; [| split; [| split; [| split]]].
  - intros v I V. apply valid_rating_range in V. rewrite I, V in R.
    split; [| split; [intros m; apply filter_In | exact R]].
    unfold rating_filter. rewrite T, I. unfold valid_rating in V.
    rewrite V. cbn [negb]. unfold bind, deref, alloc, ret.
    now rewrite Hfd, boolean_index_map.
  - intros v I V.
    destruct (valid_rating v) eqn:V'; [apply valid_rating_range in V'; tauto|].
    rewrite I, V' in R. split; [| exact R].
    unfold rating_filter. rewrite T, I. unfold valid_rating in V'.
    now rewrite V'.
  - intros I. rewrite I in R. split; [| exact R].
    unfold rating_filter. now rewrite T, I.
  - intros q rows <- G. now apply (shown_rows_rating data q st D rows).
  - vm_compute. reflexivity.
Qed.

Lemma C3_rating_field_witness :
  run 0%nat (rating_only "8") [[inception]]
  = Val (rows_or_no_results
           (filter (fun m => PyNum.fle (PyNum.Fin 8) (rating m))
                   [inception])).
Proof.
  apply (proj1 (C3_rating_field_lower_bound_or_message
                  "8" [[inception]] 0%nat [inception] [] 0%nat
                  [inception] eq_refl eq_refl eq_refl) (PyNum.Fin 8));
    [reflexivity |].
  exists 8%Q. split; [reflexivity | split; discriminate].
Defined.

(** C4 (as the code runs it): the title query "." is read as a pattern, so
    the row titled "Inception" is shown although "." does not occur in that
    title. *)
Theorem C4_dot_query_is_a_pattern :
  icontains "." "Inception" = false
  /\ run 0%nat (mkQuery "." "" "" "" "" "") [[inception]]
     = Val (ResultTable [inception]).
Proof. split; vm_compute; reflexivity. Qed.

(** C5: when the six fields hold only whitespace, the call shows the single
    "Input Required" message and does nothing else: whatever the table and
    the store are, the store is left as it was. *)
Theorem C5_blank_query_input_required data q st :
  is_blank (title_entry q) = true ->
  is_blank (genre_entry q) = true ->
  is_blank (release_date_entry q) = true ->
  is_blank (rating_entry q) = true ->
  is_blank (actor_entry q) = true ->
  is_blank (director_entry q) = true ->
  search_data data q st
  = (Val (ErrorBox "Input Required" msg_input_required), st).
Proof.
  unfold is_blank. intros H1 H2 H3 H4 H5 H6.
  apply strip_blank in H1, H2, H3, H4, H5, H6.
  unfold search_data. rewrite H1, H2, H3, H4, H5, H6. reflexivity.
Qed.

Lemma C5_blank_query_witness :
  search_data 0%nat (mkQuery "  " "" " " "" "" "   ") [[inception]]
  = (Val (ErrorBox "Input Required" msg_input_required), [[inception]]).
Proof. apply C5_blank_query_input_required; reflexivity. Defined.

(** C6 (as the code runs it): with a year and a rating that are both
    rejected and the title "(", the call ends in an uncaught [re.error]
    before either numeric field is looked at: no message is shown. *)
Theorem C6_bad_pattern_aborts_validation :
  PyNum.int (PyStr.strip "abc") = None
  /\ PyNum.float_of_str (PyStr.strip "xyz") = None
  /\ search_data 0%nat (mkQuery "(" "" "abc" "xyz" "" "") [[inception]]
     = (Raised re_error, [[inception]]).
Proof. repeat split; vm_compute; reflexivity. Qed.

(** C7 (as the code runs it): the query with the title "(" alone is not
    blank and its numeric fields give no message, and "(" occurs in no
    title of the table; the call ends in an uncaught [re.error] and the
    "no results" message is not shown. *)
Theorem C7_bad_pattern_no_results_not_reported :
  all_blank (mkQuery "(" "" "" "" "" "") = false
  /\ snd (year_predicate (PyStr.strip "")) = []
  /\ snd (rating_predicate (PyStr.strip "")) = []
  /\ icontains "(" "Inception" = false
  /\ run 0%nat (mkQuery "(" "" "" "" "" "") [[inception]] = Raised re_error.
Proof. repeat split; vm_compute; reflexivity. Qed.



(** C9: a call leaves the table and every frame of the store as they were
    (it only adds frames), and the same call made again, in the store the
    first one left, has the same outcome. *)
Theorem C9_repeated_call_same_outcome data q st D :
  nth_error st data = Some D ->
  nth_error (snd (search_data data q st)) data = Some D
  /\ (forall r df, nth_error st r = Some df ->
                   nth_error (snd (search_data data q st)) r = Some df)
  /\ fst (search_data data q (snd (search_data data q st)))
     = fst (search_data data q st).
Proof.
  intros H.
  destruct (search_data_single_pass data q st D H) as (st1 & E1 & X1).
  rewrite E1. cbn [fst snd].
  pose proof (extends_lookup _ _ _ _ X1 H) as H1.
  split; [exact H1|]. split.
  - intros r df. now apply extends_lookup.
  - destruct (search_data_single_pass data q st1 D H1) as (st2 & E2 & _).
    now rewrite E2.
Qed.

Lemma C9_repeated_call_witness :
  fst (search_data 0%nat year_2010_rating_8
         (snd (search_data 0%nat year_2010_rating_8 [[inception]])))
  = fst (search_data 0%nat year_2010_rating_8 [[inception]]).
Proof.
  exact (proj2 (proj2 (C9_repeated_call_same_outcome
                         0%nat year_2010_rating_8 [[inception]] [inception]
                         eq_refl))).
Defined.

(** C10 (as the code runs it): in a table whose only row has no title the
    title column is all missing, so it is loaded as a float64 column; the
    search for the title "a" then ends in an uncaught [AttributeError] at
    [.str], where the claim has the row left out and "no results"
    reported. *)
Theorem C10_all_missing_column_raises :
  all_missing (map title [untitled]) = true
  /\ as_loaded [untitled] untitled_types
  /\ search_data_typed untitled_types 0%nat (mkQuery "a" "" "" "" "" "")
                       [[untitled]]
     = (Raised AttributeError, [[untitled]]).
Proof.
  split; [reflexivity|]. split; [| vm_compute; reflexivity].
  unfold as_loaded.
  repeat split; try reflexivity; intros H; vm_compute in H; discriminate H.
Qed.

(** * Further properties of the program *)

(** ** The kinds of outcome *)

Lemma single_pass_of_predicates D q p1 p2 p5 p6 :
  all_blank q = false ->
  text_predicate title (PyStr.strip (title_entry q)) = Val p1 ->
  text_predicate genre (PyStr.strip (genre_entry q)) = Val p2 ->
  text_predicate actors (PyStr.strip (actor_entry q)) = Val p5 ->
  text_predicate director (PyStr.strip (director_entry q)) = Val p6 ->
  snd (year_predicate (PyStr.strip (release_date_entry q))) = [] ->
  snd (rating_predicate (PyStr.strip (rating_entry q))) = [] ->
  single_pass D q
  = Val (rows_or_no_results
           (filter (fun m =>
              p1 m && p2 m
              && fst (year_predicate (PyStr.strip (release_date_entry q))) m
              && fst (rating_predicate (PyStr.strip (rating_entry q))) m
              && p5 m && p6 m) D)).
Proof.
  intros B E1 E2 E5 E6 Y R. unfold single_pass, query_predicate.
  rewrite B, E1, E2. cbn [rbind].
  destruct (year_predicate _) as [p3 e3].
  destruct (rating_predicate _) as [p4 e4].
  rewrite E5, E6. cbn [rbind fst snd] in *. subst. reflexivity.
Qed.

Lemma single_pass_table_nonblank D q rows :
  single_pass D q = Val (ResultTable rows) ->
  all_blank q = false /\ rows <> [].
Proof.
  unfold single_pass. destruct (all_blank q); [discriminate|].
  destruct (query_predicate q) as [[p errs]| |]; try discriminate.
  cbn [rbind fst snd]. destruct errs; [|discriminate].
  unfold rows_or_no_results.
  destruct (filter p D) eqn:E; cbn; [discriminate|].
  intros [= <-]. split; [reflexivity | discriminate].
Qed.

Lemma query_predicate_messages q p errs :
  query_predicate q = Val (p, errs) ->
  errs = snd (year_predicate (PyStr.strip (release_date_entry q)))
         ++ snd (rating_predicate (PyStr.strip (rating_entry q))).
Proof.
  unfold query_predicate.
  destruct (text_predicate title _); try discriminate.
  destruct (text_predicate genre _); try discriminate.
  cbn [rbind].
  destruct (year_predicate _) as [p3 e3].
  destruct (rating_predicate _) as [p4 e4].
  destruct (text_predicate actors _); try discriminate.
  destruct (text_predicate director _); try discriminate.
  cbn [rbind snd]. now intros [= _ <-].
Qed.

(** X1: What a completed call shows is of one of four kinds: the request for
    input (exactly for a blank query), the message that nothing was found,
    a report made of at most one message for the year followed by at most
    one for the rating, or a table of rows of the searched table, in its
    order, that is never empty.  The "Error" box of [show_results] is never
    shown by a search. *)
Theorem outcome_kinds data q st D o :
  nth_error st data = Some D ->
  run data q st = Val o ->
  (forall msg, o <> ErrorBox "Error" msg)
  /\ ((all_blank q = true
       /\ o = ErrorBox "Input Required" msg_input_required)
      \/ (all_blank q = false /\ o = search_error [msg_no_results])
      \/ (all_blank q = false
          /\ exists ys rs,
               o = search_error (ys ++ rs) /\ ys ++ rs <> []
               /\ (ys = [] \/ exists m, invalid_year_msg m /\ ys = [m])
               /\ (rs = [] \/ exists m, invalid_rating_msg m /\ rs = [m]))
      \/ (all_blank q = false
          /\ exists rows, o = ResultTable rows /\ rows <> []
                          /\ subseq rows D)).
Proof.
  intros H R. rewrite (run_single_pass _ _ _ _ H) in R.
  assert (K : (all_blank q = true
       /\ o = ErrorBox "Input Required" msg_input_required)
      \/ (all_blank q = false /\ o = search_error [msg_no_results])
      \/ (all_blank q = false
          /\ exists ys rs,
               o = search_error (ys ++ rs) /\ ys ++ rs <> []
               /\ (ys = [] \/ exists m, invalid_year_msg m /\ ys = [m])
               /\ (rs = [] \/ exists m, invalid_rating_msg m /\ rs = [m]))
      \/ (all_blank q = false
          /\ exists rows, o = ResultTable rows /\ rows <> []
                          /\ subseq rows D)).
  { unfold single_pass in R. destruct (all_blank q).
    { left. injection R as <-. now split. }
    right. destruct (query_predicate q) as [[p errs]| |] eqn:Q;
      try discriminate.
    cbn [rbind fst snd] in R. destruct errs as [|msg msgs].
    - unfold rows_or_no_results in R. destruct (filter p D) eqn:F.
      + left. injection R as <-. now split.
      + right. right. split; [reflexivity|]. cbn in R. injection R as <-.
        eexists. split; [reflexivity|]. split; [discriminate|].
        rewrite <- F. apply filter_subseq.
    - right. left. split; [reflexivity|]. injection R as <-.
      apply query_predicate_messages in Q.
      exists (snd (year_predicate (PyStr.strip (release_date_entry q)))),
             (snd (rating_predicate (PyStr.strip (rating_entry q)))).
      rewrite <- Q. split; [reflexivity|]. split; [discriminate|]. split.
      + destruct (year_predicate_messages
                    (PyStr.strip (release_date_entry q)))
          as [Y | (m & I & Y)]; [now left | right].
        exists m. now rewrite Y.
      + destruct (rating_predicate_messages (PyStr.strip (rating_entry q)))
          as [Y | (m & I & Y)]; [now left | right].
        exists m. now rewrite Y. }
  split; [| exact K]. intros msg E. subst o. unfold search_error in K.
  destruct K as [[_ K] | [[_ K] | [(_ & ys & rs & K & _) | (_ & rows & K & _)]]];
    discriminate K.
Qed.

Lemma outcome_kinds_witness :
  ResultTable [inception] <> ErrorBox "Error" msg_no_results_show.
Proof.
  exact (proj1 (outcome_kinds 0%nat year_2010_rating_8 [[inception]]
                  [inception] (ResultTable [inception]) eq_refl eq_refl)
               msg_no_results_show).
Defined.

(** ** Narrowing a search, and searching in the rows found *)

Lemma filter_subseq_imp {A} (p p' : A -> bool) l :
  (forall x, p' x = true -> p x = true) ->
  subseq (filter p' l) (filter p l).
Proof.
  intros I. induction l as [|x l IH]; cbn; [constructor|].
  destruct (p' x) eqn:E'.
  - rewrite (I x E'). now constructor.
  - destruct (p x); [now constructor | assumption].
Qed.

Lemma subseq_nil_inv {A} (l : list A) : subseq l [] -> l = [].
Proof. now inversion 1. Qed.

Lemma text_field_refines column a b p' :
  field_refines a b ->
  text_predicate column (PyStr.strip b) = Val p' ->
  exists p, text_predicate column (PyStr.strip a) = Val p
            /\ forall m, p' m = true -> p m = true.
Proof.
  intros [E | E] H; rewrite E.
  - exists always. split; reflexivity.
  - exists p'. split; [exact H | auto].
Qed.

Lemma year_field_refines a b :
  field_refines a b ->
  snd (year_predicate (PyStr.strip b)) = [] ->
  snd (year_predicate (PyStr.strip a)) = []
  /\ forall m, fst (year_predicate (PyStr.strip b)) m = true ->
               fst (year_predicate (PyStr.strip a)) m = true.
Proof. intros [E | E] H; rewrite E; split; auto. Qed.

Lemma rating_field_refines a b :
  field_refines a b ->
  snd (rating_predicate (PyStr.strip b)) = [] ->
  snd (rating_predicate (PyStr.strip a)) = []
  /\ forall m, fst (rating_predicate (PyStr.strip b)) m = true ->
               fst (rating_predicate (PyStr.strip a)) m = true.
Proof. intros [E | E] H; rewrite E; split; auto. Qed.

(** X3: Filling in more fields narrows the search: when a query shows a table,
    every query that leaves some of its fields blank and keeps the others
    (and is not blank) shows a table too, and the rows of the first are
    among the rows of the second, in the same order. *)
Theorem more_fields_fewer_rows data q st data' q' st' D rows' :
  nth_error st data = Some D ->
  nth_error st' data' = Some D ->
  refines q q' ->
  all_blank q = false ->
  run data' q' st' = Val (ResultTable rows') ->
  exists rows, run data q st = Val (ResultTable rows)
               /\ subseq rows' rows.
Proof.
  intros H H' (F1 & F2 & F3 & F4 & F5 & F6) B R.
  rewrite (run_single_pass _ _ _ _ H') in R.
  destruct (single_pass_table_nonblank _ _ _ R) as [_ N].
  apply single_pass_table in R
    as (p1' & p2' & p5' & p6' & E1 & E2 & E5 & E6 & Y & T & ->).
  destruct (text_field_refines _ _ _ _ F1 E1) as (p1 & G1 & I1).
  destruct (text_field_refines _ _ _ _ F2 E2) as (p2 & G2 & I2).
  destruct (text_field_refines _ _ _ _ F5 E5) as (p5 & G5 & I5).
  destruct (text_field_refines _ _ _ _ F6 E6) as (p6 & G6 & I6).
  destruct (year_field_refines _ _ F3 Y) as [Y' I3].
  destruct (rating_field_refines _ _ F4 T) as [T' I4].
  rewrite (run_single_pass _ _ _ _ H).
  rewrite (single_pass_of_predicates D q p1 p2 p5 p6 B G1 G2 G5 G6 Y' T').
  match goal with
  | |- context [rows_or_no_results (filter ?p D)] =>
      assert (S : subseq (filter (fun m =>
                 p1' m && p2' m
                 && fst (year_predicate
                           (PyStr.strip (release_date_entry q'))) m
                 && fst (rating_predicate
                           (PyStr.strip (rating_entry q'))) m
                 && p5' m && p6' m) D) (filter p D))
  end.
  { apply filter_subseq_imp. intros m C.
    repeat (apply andb_true_iff in C as [C ?]).
    rewrite I1, I2, I3, I4, I5, I6 by assumption. reflexivity. }
  eexists. split; [| exact S].
  unfold rows_or_no_results.
  match goal with
  | |- context [empty ?l] => destruct l eqn:E
  end; [| reflexivity].
  apply subseq_nil_inv in S. contradiction.
Qed.

Lemma more_fields_fewer_rows_witness :
  exists rows,
    run 0%nat (year_only "2010") [[inception]] = Val (ResultTable rows)
    /\ subseq [inception] rows.
Proof.
  apply (more_fields_fewer_rows 0%nat (year_only "2010") [[inception]]
           0%nat year_2010_rating_8 [[inception]] [inception] [inception]
           eq_refl eq_refl).
  - unfold refines, field_refines.
    repeat split; try (left; reflexivity); right; reflexivity.
  - reflexivity.
  - reflexivity.
Defined.

Lemma text_predicate_empty column : text_predicate column "" = Val always.
Proof. reflexivity. Qed.

Lemma truthy_strip_false s : PyStr.truthy (PyStr.strip s) = false ->
  PyStr.strip s = "".
Proof. now destruct (PyStr.strip s). Qed.

Lemma text_field_merge column a b pa pb :
  compatible_field a b ->
  text_predicate column (PyStr.strip a) = Val pa ->
  text_predicate column (PyStr.strip b) = Val pb ->
  exists p, text_predicate column (PyStr.strip (merge_field a b)) = Val p
            /\ forall m, p m = pa m && pb m.
Proof.
  intros C Ha Hb. unfold merge_field.
  destruct (PyStr.truthy (PyStr.strip a)) eqn:T.
  - exists pa. split; [exact Ha|]. intros m.
    destruct C as [C | [C | C]].
    + rewrite C in T. discriminate.
    + rewrite C in Hb. injection Hb as <-.
      unfold always. now rewrite andb_true_r.
    + rewrite C, Hb in Ha. injection Ha as ->. now rewrite andb_diag.
  - exists pb. split; [exact Hb|]. intros m.
    apply truthy_strip_false in T. rewrite T in Ha. now injection Ha as <-.
Qed.

Lemma year_field_merge a b :
  compatible_field a b ->
  snd (year_predicate (PyStr.strip a)) = [] ->
  snd (year_predicate (PyStr.strip b)) = [] ->
  snd (year_predicate (PyStr.strip (merge_field a b))) = []
  /\ forall m, fst (year_predicate (PyStr.strip (merge_field a b))) m
               = fst (year_predicate (PyStr.strip a)) m
                 && fst (year_predicate (PyStr.strip b)) m.
Proof.
  intros C Ha Hb. unfold merge_field.
  destruct (PyStr.truthy (PyStr.strip a)) eqn:T.
  - split; [exact Ha|]. intros m. destruct C as [C | [C | C]].
    + rewrite C in T. discriminate.
    + rewrite C. cbn. unfold always. now rewrite andb_true_r.
    + rewrite C. now rewrite andb_diag.
  - split; [exact Hb|]. intros m.
    apply truthy_strip_false in T. now rewrite T.
Qed.

Lemma rating_field_merge a b :
  compatible_field a b ->
  snd (rating_predicate (PyStr.strip a)) = [] ->
  snd (rating_predicate (PyStr.strip b)) = [] ->
  snd (rating_predicate (PyStr.strip (merge_field a b))) = []
  /\ forall m, fst (rating_predicate (PyStr.strip (merge_field a b))) m
               = fst (rating_predicate (PyStr.strip a)) m
                 && fst (rating_predicate (PyStr.strip b)) m.
Proof.
  intros C Ha Hb. unfold merge_field.
  destruct (PyStr.truthy (PyStr.strip a)) eqn:T.
  - split; [exact Ha|]. intros m. destruct C as [C | [C | C]].
    + rewrite C in T. discriminate.
    + rewrite C. cbn. unfold always. now rewrite andb_true_r.
    + rewrite C. now rewrite andb_diag.
  - split; [exact Hb|]. intros m.
    apply truthy_strip_false in T. now rewrite T.
Qed.

Lemma truthy_merge_field a b :
  PyStr.truthy (PyStr.strip a) = true ->
  PyStr.truthy (PyStr.strip (merge_field a b)) = true.
Proof. unfold merge_field. intros T. now rewrite T. Qed.

Lemma all_blank_merge q1 q2 :
  all_blank q1 = false -> all_blank (merge q1 q2) = false.
Proof.
  unfold all_blank. rewrite !negb_false_iff. cbn [PyStr.any existsb merge
    title_entry genre_entry release_date_entry rating_entry actor_entry
    director_entry].
  rewrite !orb_false_r, !orb_true_iff.
  intros [T | [T | [T | [T | [T | T]]]]];
    [ left | right; left | do 2 right; left | do 3 right; left
    | do 4 right; left | do 5 right ];
    apply truthy_merge_field; exact T.
Qed.

(** X4: Searching in the rows found: when [q1] shows a table and [q2], which
    fills in no field differently, is then run on the rows of that table and
    shows a table, the query with the fields of both, run on the first
    table, shows the same rows. *)
Theorem search_in_results_is_merged_search
  data1 st1 data2 st2 data3 st3 q1 q2 D rows1 rows2 :
  compatible q1 q2 ->
  nth_error st1 data1 = Some D ->
  run data1 q1 st1 = Val (ResultTable rows1) ->
  nth_error st2 data2 = Some rows1 ->
  run data2 q2 st2 = Val (ResultTable rows2) ->
  nth_error st3 data3 = Some D ->
  run data3 (merge q1 q2) st3 = Val (ResultTable rows2).
Proof.
  intros (C1 & C2 & C3 & C4 & C5 & C6) H1 R1 H2 R2 H3.
  rewrite (run_single_pass _ _ _ _ H1) in R1.
  rewrite (run_single_pass _ _ _ _ H2) in R2.
  destruct (single_pass_table_nonblank _ _ _ R1) as [B1 _].
  destruct (single_pass_table_nonblank _ _ _ R2) as [_ N2].
  apply single_pass_table in R1
    as (a1 & a2 & a5 & a6 & A1 & A2 & A5 & A6 & AY & AT & ->).
  apply single_pass_table in R2
    as (b1 & b2 & b5 & b6 & B1' & B2 & B5 & B6 & BY & BT & ->).
  destruct (text_field_merge _ _ _ _ _ C1 A1 B1') as (p1 & G1 & I1).
  destruct (text_field_merge _ _ _ _ _ C2 A2 B2) as (p2 & G2 & I2).
  destruct (text_field_merge _ _ _ _ _ C5 A5 B5) as (p5 & G5 & I5).
  destruct (text_field_merge _ _ _ _ _ C6 A6 B6) as (p6 & G6 & I6).
  destruct (year_field_merge _ _ C3 AY BY) as [Y I3].
  destruct (rating_field_merge _ _ C4 AT BT) as [T I4].
  rewrite (run_single_pass _ _ _ _ H3).
  rewrite (single_pass_of_predicates D (merge q1 q2) p1 p2 p5 p6
             (all_blank_merge q1 q2 B1) G1 G2 G5 G6 Y T).
  rewrite filter_filter in N2 |- *.
  match goal with
  | |- Val (rows_or_no_results ?l) = Val (ResultTable ?r) =>
      assert (E : l = r)
  end.
  { apply filter_ext. intros m. cbn [merge release_date_entry rating_entry].
    rewrite I1, I2, I3, I4, I5, I6.
    repeat match goal with
           | |- context [?f m] =>
               is_var f; destruct (f m); cbn [andb]
           end;
    repeat match goal with
           | |- context [fst ?x m] => destruct (fst x m); cbn [andb]
           end; reflexivity. }
  rewrite E. unfold rows_or_no_results.
  match goal with
  | |- context [empty ?l] => destruct l eqn:F
  end; [contradiction | reflexivity].
Qed.

Lemma search_in_results_witness :
  run 0%nat (merge (year_only "2010") (rating_only "8")) [[inception]]
  = Val (ResultTable [inception]).
Proof.
  apply (search_in_results_is_merged_search
           0%nat [[inception]] 0%nat [[inception]] 0%nat [[inception]]
           (year_only "2010") (rating_only "8") [inception] [inception]
           [inception]).
  - unfold compatible, compatible_field.
    repeat split; try (left; reflexivity); right; left; reflexivity.
  - reflexivity.
  - reflexivity.
  - reflexivity.
  - reflexivity.
  - reflexivity.
Defined.

(** X5: The same search in its own result finds every row again. *)
Theorem search_again_in_results data st data' st' q D rows :
  nth_error st data = Some D ->
  run data q st = Val (ResultTable rows) ->
  nth_error st' data' = Some rows ->
  run data' q st' = Val (ResultTable rows).
Proof.
  intros H R H'. rewrite (run_single_pass _ _ _ _ H) in R.
  destruct (single_pass_table_nonblank _ _ _ R) as [B N].
  apply single_pass_table in R
    as (p1 & p2 & p5 & p6 & E1 & E2 & E5 & E6 & Y & T & E).
  rewrite (run_single_pass _ _ _ _ H').
  rewrite (single_pass_of_predicates rows q p1 p2 p5 p6 B E1 E2 E5 E6 Y T).
  assert (F : forall p (l : DataFrame), filter p (filter p l) = filter p l).
  { intros p l. rewrite filter_filter. apply filter_ext. intros m.
    apply andb_diag. }
  rewrite E at 1. rewrite F, <- E. unfold rows_or_no_results.
  destruct rows; [contradiction | reflexivity].
Qed.

Lemma search_again_in_results_witness :
  run 0%nat year_2010_rating_8 [[inception]]
  = Val (ResultTable [inception]).
Proof.
  apply (search_again_in_results 0%nat [[inception]] 0%nat [[inception]]
           year_2010_rating_8 [inception] [inception]);
    reflexivity.
Defined.

(** ** Blanks around the text of a field *)

Lemma chars_append a b :
  PyStr.chars (a ++ b)%string = PyStr.chars a ++ PyStr.chars b.
Proof.
  unfold PyStr.chars. induction a as [|c a IH]; cbn; [reflexivity|].
  now rewrite IH.
Qed.

Lemma lstrip_chars_app_blank l x :
  forallb PyStr.is_space l = true ->
  PyStr.lstrip_chars (l ++ x) = PyStr.lstrip_chars x.
Proof.
  induction l as [|c l IH]; cbn; [reflexivity|].
  intros H. apply andb_true_iff in H as [-> H]. now apply IH.
Qed.

Lemma lstrip_chars_split l :
  exists pre, l = pre ++ PyStr.lstrip_chars l
              /\ forallb PyStr.is_space pre = true.
Proof.
  induction l as [|c l (pre & E & B)]; cbn.
  - now exists [].
  - destruct (PyStr.is_space c) eqn:S.
    + exists (c :: pre); cbn. rewrite S, B. split; [congruence | reflexivity].
    + now exists [].
Qed.

Lemma strip_chars_padded l x r :
  forallb PyStr.is_space l = true ->
  forallb PyStr.is_space r = true ->
  PyStr.strip_chars (l ++ x ++ r) = PyStr.strip_chars x.
Proof.
  intros L R. unfold PyStr.strip_chars, PyStr.rstrip_chars.
  rewrite (lstrip_chars_app_blank l _ L).
  destruct (lstrip_chars_split x) as (pre & E & B).
  rewrite E at 1. rewrite <- app_assoc, (lstrip_chars_app_blank pre _ B).
  destruct (PyStr.lstrip_chars x) as [|c y] eqn:S.
  - cbn [app]. apply lstrip_chars_blank in R. now rewrite R.
  - pose proof (lstrip_chars_head _ _ _ S) as N.
    change ((c :: y) ++ r) with (c :: (y ++ r)).
    cbn [PyStr.lstrip_chars]. rewrite N.
    change (c :: y ++ r) with ((c :: y) ++ r). rewrite rev_app_distr.
    rewrite lstrip_chars_app_blank; [reflexivity|].
    now rewrite forallb_rev.
Qed.

Lemma strip_padded e e' : padded e e' -> PyStr.strip e' = PyStr.strip e.
Proof.
  intros (l & r & L & R & ->). unfold PyStr.strip, is_blank in *.
  now rewrite !chars_append, strip_chars_padded.
Qed.

(** X6: Blanks typed before or after the text of a field change nothing: the
    call shows the same and leaves the same store. *)
Theorem blanks_around_fields_ignored data q q' st :
  padded_query q q' ->
  search_data data q' st = search_data data q st.
Proof.
  intros (P1 & P2 & P3 & P4 & P5 & P6). unfold search_data.
  now rewrite (strip_padded _ _ P1), (strip_padded _ _ P2),
    (strip_padded _ _ P3), (strip_padded _ _ P4), (strip_padded _ _ P5),
    (strip_padded _ _ P6).
Qed.

Lemma padded_refl e : padded e e.
Proof.
  exists "", "". repeat split. cbn. induction e; cbn; congruence.
Qed.

Lemma blanks_around_fields_witness :
  search_data 0%nat (mkQuery "" "" "  2010 " "" "" "") [[inception]]
  = search_data 0%nat (year_only "2010") [[inception]].
Proof.
  apply blanks_around_fields_ignored.
  unfold padded_query, year_only. cbn.
  repeat split; try apply padded_refl.
  exists "  ", " ". repeat split.
Defined.

(** ** Queries without special characters *)

Lemma text_predicate_plain_val column s :
  plain s = true -> exists p, text_predicate column s = Val p.
Proof.
  unfold plain. rewrite negb_true_iff. intros P.
  destruct (PyStr.truthy s) eqn:T.
  - destruct (text_predicate_plain column s T P) as (p & E & _). eauto.
  - unfold text_predicate. rewrite T. eauto.
Qed.

(** X8: On a table where every text field that is filled in is on an object
    column, a search whose text fields hold no special character of [re]
    always completes: it shows a message or a table, and raises nothing,
    whatever the year and rating fields hold. *)
Theorem plain_query_completes types data q st D :
  nth_error st data = Some D ->
  field_on_text (PyStr.strip (title_entry q)) (title_dtype types) ->
  field_on_text (PyStr.strip (genre_entry q)) (genre_dtype types) ->
  field_on_text (PyStr.strip (actor_entry q)) (actors_dtype types) ->
  field_on_text (PyStr.strip (director_entry q)) (director_dtype types) ->
  plain (PyStr.strip (title_entry q)) = true ->
  plain (PyStr.strip (genre_entry q)) = true ->
  plain (PyStr.strip (actor_entry q)) = true ->
  plain (PyStr.strip (director_entry q)) = true ->
  exists o, run_typed types data q st = Val o.
Proof.
  intros H F1 F2 F5 F6 P1 P2 P5 P6. unfold run_typed.
  rewrite (search_data_typed_on_text types data q st F1 F2 F5 F6).
  fold (run data q st). rewrite (run_single_pass _ _ _ _ H).
  unfold single_pass. destruct (all_blank q); [eauto|].
  unfold query_predicate.
  destruct (text_predicate_plain_val title _ P1) as [p1 ->].
  destruct (text_predicate_plain_val genre _ P2) as [p2 ->].
  cbn [rbind].
  destruct (year_predicate _) as [p3 e3].
  destruct (rating_predicate _) as [p4 e4].
  destruct (text_predicate_plain_val actors _ P5) as [p5 ->].
  destruct (text_predicate_plain_val director _ P6) as [p6 ->].
  cbn [rbind fst snd]. destruct (e3 ++ e4); eauto.
Qed.

Lemma plain_query_completes_witness :
  exists o, run_typed untitled_types 0%nat
                      (mkQuery "" "sci" "x" "" "" "nolan") [[untitled]]
            = Val o.
Proof.
  apply (plain_query_completes untitled_types 0%nat _ [[untitled]]
           [untitled]);
    try reflexivity; try (left; reflexivity); right; reflexivity.
Defined.

(** ** The two tables *)

(** X9: A search from the window of the under-18 table depends on that table
    alone: whatever the other table holds, the outcome is the same, every
    row shown is a row of the under-18 table, and both tables are left as
    they were.  The same holds the other way round. *)
Theorem search_stays_in_its_table adults adults' minors minors' q :
  run data_under_18 q (loaded adults minors)
  = run data_under_18 q (loaded adults' minors)
  /\ run data_18_plus q (loaded adults minors)
     = run data_18_plus q (loaded adults minors')
  /\ (forall rows,
        run data_under_18 q (loaded adults minors) = Val (ResultTable rows)
        -> subseq rows minors)
  /\ (forall rows,
        run data_18_plus q (loaded adults minors) = Val (ResultTable rows)
        -> subseq rows adults)
  /\ (forall data, data = data_under_18 \/ data = data_18_plus ->
        firstn 2 (snd (search_data data q (loaded adults minors)))
        = loaded adults minors).
Proof.
  assert (T : forall data st D rows,
             nth_error st data = Some D ->
             run data q st = Val (ResultTable rows) -> subseq rows D).
  { intros data st D rows H R.
    destruct (outcome_kinds data q st D _ H R)
      as [_ [[_ K] | [[_ K] | [(_ & ys & rs & K & _) | (_ & r & K & _ & S)]]]];
      try discriminate K.
    now injection K as ->. }
  repeat split.
  - now rewrite !(run_single_pass _ _ _ minors).
  - now rewrite !(run_single_pass _ _ _ adults).
  - intros rows. now apply T.
  - intros rows. now apply T.
  - intros data [-> | ->].
    + destruct (search_data_single_pass data_under_18 q
                  (loaded adults minors) minors eq_refl)
        as (st' & -> & new & ->). reflexivity.
    + destruct (search_data_single_pass data_18_plus q
                  (loaded adults minors) adults eq_refl)
        as (st' & -> & new & ->). reflexivity.
Qed.

Lemma search_stays_in_its_table_witness :
  subseq [inception] [inception].
Proof.
  apply (proj1 (proj2 (proj2 (search_stays_in_its_table
           [] [] [inception] [] year_2010_rating_8))) [inception]).
  reflexivity.
Defined.

(** ** The width of the columns *)

Lemma fold_max_ge l : forall a, a <= fold_left Z.max l a.
Proof.
  induction l as [|x l IH]; intros a; cbn; [lia|].
  specialize (IH (Z.max a x)). lia.
Qed.

Lemma fold_max_In l : forall a x, In x l -> x <= fold_left Z.max l a.
Proof.
  induction l as [|y l IH]; intros a x; cbn; [tauto|].
  intros [-> | I]; [| now apply IH].
  pose proof (fold_max_ge l (Z.max a x)). lia.
Qed.

(** X12: A column of the result table is between 100 and 300 wide; between
    these bounds it is 7 for each character of the longest text among its
    name and its cells, so that the name and every cell get 7 per
    character unless the column is at 300. *)
Theorem column_width_bounds col cells :
  100 <= column_width col cells <= 300
  /\ (column_chars col cells <= 14 -> column_width col cells = 100)
  /\ (43 <= column_chars col cells -> column_width col cells = 300)
  /\ (15 <= column_chars col cells <= 42 ->
      column_width col cells = 7 * column_chars col cells)
  /\ (forall s, s = col \/ In s cells ->
        7 * Z.of_nat (String.length s) <= column_width col cells
        \/ column_width col cells = 300).
Proof.
  unfold column_width. repeat split; try lia.
  intros s I.
  assert (L : Z.of_nat (String.length s) <= column_chars col cells).
  { unfold column_chars. destruct I as [-> | I]; [apply fold_max_ge|].
    apply fold_max_In. now apply (in_map (fun s => Z.of_nat (String.length s))). }
  lia.
Qed.

Lemma column_width_bounds_witness :
  column_width "title" ["Inception"; "The Matrix Reloaded"] = 133.
Proof.
  rewrite (proj1 (proj2 (proj2 (proj2
             (column_width_bounds "title"
                ["Inception"; "The Matrix Reloaded"]))))); [reflexivity|].
  vm_compute. split; discriminate.
Defined.

(** ** The widgets after a search *)

Ltac run_block :=
  match goal with
  | |- context [text_filter ?c ?s ?fd ?st] =>
      destruct (text_filter c s fd st) as [[?fd| |] ?st]
  | |- context [year_filter ?s ?fd ?e ?st] =>
      destruct (year_filter s fd e st) as [[[?fd ?errs]| |] ?st]
  | |- context [rating_filter ?s ?fd ?e ?st] =>
      destruct (rating_filter s fd e st) as [[[?fd ?errs]| |] ?st]
  | |- context [deref ?fd ?st] =>
      destruct (deref fd st) as [[?df| |] ?st]
  end; cbn [fst snd forget calls_of]; try reflexivity.

(** The calls of [search_data_gui] are those of the outcome of
    [search_data], and the frames are handled alike. *)
Lemma search_data_gui_calls data q st t :
  search_data_gui data q st t
  = (forget (fst (search_data data q st)),
     snd (search_data data q st),
     t ++ calls_of (fst (search_data data q st))).
Proof.
  unfold search_data_gui, search_data.
  unfold gbind at 1. unfold call at 1. cbv zeta.
  destruct (negb (PyStr.any _)).
  { unfold gbind, call, ret. cbn [fst snd forget calls_of].
    now rewrite <- !app_assoc. }
  unfold gbind, liftG, bind.
  do 7 run_block.
  destruct (nonempty errs0 || empty df) eqn:E.
  - unfold call, ret. cbn [fst snd forget calls_of search_error].
    now rewrite <- !app_assoc.
  - unfold ret, show_results, show_results_gui. cbn [fst snd].
    apply orb_false_elim in E as [_ E]. rewrite E. cbn [orb].
    unfold gbind, call. cbn [forget calls_of].
    now rewrite <- !app_assoc.
Qed.

(** X10: After a search the widgets are in one of three states.  When a message
    box was shown, the window is open and the Search button is enabled
    again.  When a table was shown, the search window is gone.  When the run
    ended in an exception, no message was shown and the window stays open
    with its Search button disabled. *)
Theorem widgets_after_search data q st :
  let t := snd (search_data_gui data q st []) in
  let w := apply_calls new_window t in
  (forall box message,
     run data q st = Val (ErrorBox box message) ->
     t = [ButtonConfig "disabled"; ShowErrorCall box message;
          ButtonConfig "normal"]
     /\ w = new_window)
  /\ (forall rows,
        run data q st = Val (ResultTable rows) ->
        In (ResultWindow rows) t /\ window_open w = false)
  /\ (forall e,
        run data q st = Raised e ->
        t = [ButtonConfig "disabled"]
        /\ w = mkWidgets true false).
Proof.
  rewrite search_data_gui_calls. cbn [snd app]. unfold run.
  repeat split; rewrite H; cbn; auto.
Qed.

Lemma widgets_after_search_witness :
  snd (search_data_gui 0%nat (mkQuery "(" "" "" "" "" "") [[inception]] [])
  = [ButtonConfig "disabled"].
Proof.
  exact (proj1 (proj2 (proj2 (widgets_after_search
           0%nat (mkQuery "(" "" "" "" "" "") [[inception]]))
           re_error eq_refl)).
Defined.

Lemma clicks_disabled data qs st :
  clicks data qs (st, mkWidgets true false)
  = (st, mkWidgets true false, []).
Proof. induction qs as [|q qs IH]; cbn; [reflexivity | now rewrite IH]. Qed.

(** X11: A search that ends in an exception blocks its window: after it, no
    click on the Search button of that window runs a search, whatever is
    typed; the only call ever made is the one that disabled the button. *)
Theorem exception_blocks_search_button data q qs st e :
  run data q st = Raised e ->
  clicks data (q :: qs) (st, new_window)
  = (snd (search_data data q st), mkWidgets true false,
     [ButtonConfig "disabled"]).
Proof.
  intros R. cbn [clicks click_search new_window window_open button_enabled
                 andb].
  rewrite search_data_gui_calls. unfold run in R. rewrite R.
  cbn [calls_of app apply_calls fold_left apply_call window_open].
  change (String.eqb "disabled" "normal") with false.
  now rewrite clicks_disabled.
Qed.

Lemma exception_blocks_search_button_witness :
  clicks 0%nat [mkQuery "(" "" "" "" "" ""; year_only "2010"]
         ([[inception]], new_window)
  = ([[inception]], mkWidgets true false, [ButtonConfig "disabled"]).
Proof.
  apply (exception_blocks_search_button 0%nat (mkQuery "(" "" "" "" "" "")
           [year_only "2010"] [[inception]] re_error).
  reflexivity.
Defined.

(** ** The case of letters *)

Lemma all_ascii_complete c : In c all_ascii.
Proof.
  unfold all_ascii. rewrite <- (ascii_nat_embedding c).
  apply in_map, in_seq. pose proof (nat_ascii_bounded c). lia.
Qed.

Lemma case_check_all :
  forallb (fun c => forallb (case_check c) all_ascii) all_ascii = true.
Proof. vm_compute. reflexivity. Qed.

Lemma lower_eq_facts c c' :
  PyStr.lower c = PyStr.lower c' ->
  PyRe.beyond_fragment c = PyRe.beyond_fragment c'
  /\ PyStr.is_space c = PyStr.is_space c'
  /\ (PyStr.code c =? 10) = (PyStr.code c' =? 10)
  /\ (PyStr.code c =? 40) = (PyStr.code c' =? 40)
  /\ (PyStr.code c =? 41) = (PyStr.code c' =? 41)
  /\ (PyStr.code c =? 46) = (PyStr.code c' =? 46)
  /\ (PyStr.code c =? 124) = (PyStr.code c' =? 124).
Proof.
  intros E. pose proof case_check_all as A.
  rewrite forallb_forall in A. specialize (A c (all_ascii_complete c)).
  rewrite forallb_forall in A. specialize (A c' (all_ascii_complete c')).
  unfold case_check in A. rewrite E, Ascii.eqb_refl in A. cbn [negb orb] in A.
  repeat (apply andb_true_iff in A as [A ?]).
  repeat split; now apply Bool.eqb_prop.
Qed.

Lemma map_lower_Forall2 l : forall l',
  map PyStr.lower l = map PyStr.lower l' <-> Forall2 lower_eq l l'.
Proof.
  induction l as [|c l IH]; intros [|c' l']; cbn; split; intros H;
    try discriminate; try (now inversion H); try constructor.
  - now injection H.
  - apply IH. now injection H.
  - inversion H; subst. f_equal; [assumption | now apply IH].
Qed.

Lemma Forall2_lower_refl l : Forall2 lower_eq l l.
Proof. induction l; constructor; [reflexivity | assumption]. Qed.

Lemma lstrip_chars_same l l' :
  Forall2 lower_eq l l' ->
  Forall2 lower_eq (PyStr.lstrip_chars l) (PyStr.lstrip_chars l').
Proof.
  induction 1 as [|c c' l l' E F IH]; cbn; [constructor|].
  destruct (lower_eq_facts c c' E) as (_ & <- & _).
  destruct (PyStr.is_space c); [assumption | now constructor].
Qed.

Lemma Forall2_rev {A B} (R : A -> B -> Prop) l l' :
  Forall2 R l l' -> Forall2 R (rev l) (rev l').
Proof.
  induction 1; cbn; [constructor|].
  apply Forall2_app; [assumption | now constructor].
Qed.

Lemma strip_same_letters a b :
  same_letters a b -> same_letters (PyStr.strip a) (PyStr.strip b).
Proof.
  unfold same_letters, PyStr.strip. rewrite !chars_str, !map_lower_Forall2.
  intros H. unfold PyStr.strip_chars, PyStr.rstrip_chars.
  now apply Forall2_rev, lstrip_chars_same, Forall2_rev, lstrip_chars_same.
Qed.

Lemma truthy_same_letters s s' :
  same_letters s s' -> PyStr.truthy s = PyStr.truthy s'.
Proof.
  unfold same_letters. destruct s, s'; cbn; congruence.
Qed.

Lemma same_pattern_refl r : same_pattern r r.
Proof. induction r; now constructor. Qed.

Lemma same_pattern_close b b' :
  same_branch b b' -> same_pattern (PyRe.close b) (PyRe.close b').
Proof.
  destruct b as [[a|] s], b' as [[a'|] s']; cbn; intros [H1 H2];
    try contradiction; [now constructor | assumption].
Qed.

Lemma same_branch_push b b' r r' :
  same_branch b b' -> same_pattern r r' ->
  same_branch (PyRe.push b r) (PyRe.push b' r').
Proof.
  intros [H1 H2] H. split; [exact H1 | now constructor].
Qed.

Lemma parse_same l l' :
  Forall2 lower_eq l l' ->
  forall cur cur' stack stack',
    same_branch cur cur' -> Forall2 same_branch stack stack' ->
    same_compiled (PyRe.parse l cur stack) (PyRe.parse l' cur' stack').
Proof.
  induction 1 as [|c c' l l' E F IH]; intros cur cur' stack stack' C S.
  - cbn. destruct S; cbn; [now apply same_pattern_close | exact I].
  - cbn [PyRe.parse].
    destruct (lower_eq_facts c c' E) as (_ & _ & _ & <- & <- & <- & <-).
    destruct (PyStr.code c =? 40).
    { apply IH; [split; [exact I | constructor] | now constructor]. }
    destruct (PyStr.code c =? 41).
    { destruct S as [|outer outer' stack stack' O S]; [exact I|].
      apply IH; [| assumption].
      now apply same_branch_push, same_pattern_close. }
    destruct (PyStr.code c =? 124).
    { apply IH; [| assumption].
      split; [now apply same_pattern_close | constructor]. }
    destruct (PyStr.code c =? 46).
    { apply IH; [| assumption]. apply same_branch_push; [assumption|].
      constructor. }
    apply IH; [| assumption]. apply same_branch_push; [assumption|].
    now constructor.
Qed.

Lemma existsb_beyond_same l l' :
  Forall2 lower_eq l l' ->
  existsb PyRe.beyond_fragment l = existsb PyRe.beyond_fragment l'.
Proof.
  induction 1 as [|c c' l l' E F IH]; cbn; [reflexivity|].
  destruct (lower_eq_facts c c' E) as (<- & _). now rewrite IH.
Qed.

Lemma compile_same s s' :
  same_letters s s' -> same_compiled (PyRe.compile s) (PyRe.compile s').
Proof.
  unfold same_letters. rewrite map_lower_Forall2. intros H.
  unfold PyRe.compile. rewrite (existsb_beyond_same _ _ H).
  destruct (existsb _ _); [exact I|].
  apply parse_same; [assumption | split; [exact I | constructor]
                    | constructor].
Qed.

Lemma nullable_same r r' :
  same_pattern r r' -> PyRe.nullable r = PyRe.nullable r'.
Proof. induction 1; cbn; congruence. Qed.

Lemma deriv_same c c' r r' :
  lower_eq c c' -> same_pattern r r' ->
  same_pattern (PyRe.deriv c r) (PyRe.deriv c' r').
Proof.
  intros E. induction 1 as [| | a a' A | | r1 r1' r2 r2' H1 IH1 H2 IH2
                           | r1 r1' r2 r2' H1 IH1 H2 IH2]; cbn.
  - constructor.
  - constructor.
  - unfold lower_eq in E. rewrite A, E.
    destruct (Ascii.eqb _ _); constructor.
  - destruct (lower_eq_facts c c' E) as (_ & _ & <- & _).
    destruct (PyStr.code c =? 10); constructor.
  - rewrite (nullable_same _ _ H1).
    destruct (PyRe.nullable r1'); repeat constructor; assumption.
  - now constructor.
Qed.

Lemma match_here_same l l' :
  Forall2 lower_eq l l' ->
  forall r r', same_pattern r r' ->
               PyRe.match_here r l = PyRe.match_here r' l'.
Proof.
  induction 1 as [|c c' l l' E F IH]; intros r r' S; cbn.
  - now rewrite (nullable_same _ _ S).
  - rewrite (nullable_same _ _ S). f_equal.
    apply IH. now apply deriv_same.
Qed.

Lemma search_chars_same l l' :
  Forall2 lower_eq l l' ->
  forall r r', same_pattern r r' ->
               PyRe.search_chars r l = PyRe.search_chars r' l'.
Proof.
  intros F r r' S. induction F as [|c c' l l' E F IH];
    cbn -[PyRe.match_here].
  - f_equal. apply match_here_same; [constructor | assumption].
  - rewrite IH. f_equal.
    apply match_here_same; [now constructor | assumption].
Qed.

Lemma search_same r r' s s' :
  same_pattern r r' -> same_letters s s' ->
  PyRe.search r s = PyRe.search r' s'.
Proof.
  unfold same_letters, PyRe.search. rewrite map_lower_Forall2.
  intros S F. now apply search_chars_same.
Qed.

Lemma text_predicate_same_letters column s s' :
  same_letters s s' ->
  same_predicate (text_predicate column s) (text_predicate column s').
Proof.
  intros H. unfold text_predicate.
  rewrite (truthy_same_letters _ _ H).
  destruct (PyStr.truthy s'); [| intros m; reflexivity].
  pose proof (compile_same _ _ H) as C.
  destruct (PyRe.compile s), (PyRe.compile s'); cbn in *;
    try contradiction; try reflexivity.
  intros m. destruct (column m) as [t|]; [| reflexivity].
  apply search_same; [assumption | reflexivity].
Qed.

Ltac same_field col H :=
  let P := fresh "P" in
  pose proof (text_predicate_same_letters col _ _
                (strip_same_letters _ _ H)) as P;
  match type of P with
  | same_predicate (text_predicate ?c ?s) (text_predicate ?c ?s') =>
      destruct (text_predicate c s), (text_predicate c s');
      cbn [same_predicate] in P; try contradiction; try (now subst);
      cbn [rbind]
  end.

Lemma parse_not_unmodelled l : forall cur stack,
  PyRe.parse l cur stack <> PyRe.Unmodelled.
Proof.
  induction l as [|c l IH]; intros cur stack; cbn.
  - destruct stack; discriminate.
  - destruct (PyStr.code c =? 40); [apply IH|].
    destruct (PyStr.code c =? 41);
      [destruct stack; [discriminate | apply IH] |].
    destruct (PyStr.code c =? 124); [apply IH|].
    destruct (PyStr.code c =? 46); apply IH.
Qed.

Lemma text_predicate_in_fragment column s :
  in_fragment s = true -> text_predicate column s <> Beyond.
Proof.
  unfold in_fragment, text_predicate, PyRe.compile.
  rewrite negb_true_iff. intros ->.
  destruct (PyStr.truthy s); [| discriminate].
  pose proof (parse_not_unmodelled (PyStr.chars s) (None, PyRe.Empty) []).
  destruct (PyRe.parse _ _ _); [discriminate | discriminate | contradiction].
Qed.

Lemma single_pass_not_beyond D q :
  text_predicate title (PyStr.strip (title_entry q)) <> Beyond ->
  text_predicate genre (PyStr.strip (genre_entry q)) <> Beyond ->
  text_predicate actors (PyStr.strip (actor_entry q)) <> Beyond ->
  text_predicate director (PyStr.strip (director_entry q)) <> Beyond ->
  single_pass D q <> Beyond.
Proof.
  intros N1 N2 N5 N6. unfold single_pass, query_predicate.
  destruct (all_blank q); [discriminate|].
  destruct (text_predicate title _); [| discriminate | contradiction].
  destruct (text_predicate genre _); [| discriminate | contradiction].
  cbn [rbind].
  destruct (year_predicate _) as [p3 e3].
  destruct (rating_predicate _) as [p4 e4].
  destruct (text_predicate actors _); [| discriminate | contradiction].
  destruct (text_predicate director _); [| discriminate | contradiction].
  cbn [rbind fst snd]. destruct (e3 ++ e4); discriminate.
Qed.

(** X7: For text made of ordinary characters, [.], groups and [|] (none of
    the characters \ ^ $ * + ? { } [ ]), matching takes no account of the
    case of letters.  Two queries with such text fields that differ only in
    the case of letters have the same outcome, a message, a table or
    [re.error]; and for such a pattern the mask of [str.contains] is the
    same for two columns whose cells differ only in the case of letters. *)
Theorem letter_case_ignored :
  (forall data q q' st D,
     nth_error st data = Some D ->
     same_letters_query q q' ->
     in_fragment (PyStr.strip (title_entry q)) = true ->
     in_fragment (PyStr.strip (genre_entry q)) = true ->
     in_fragment (PyStr.strip (actor_entry q)) = true ->
     in_fragment (PyStr.strip (director_entry q)) = true ->
     run data q st = run data q' st /\ run data q st <> Beyond)
  /\ (forall col col' pat,
        in_fragment pat = true ->
        Forall2 same_letters_cell col col' ->
        str_contains col pat = str_contains col' pat
        /\ str_contains col pat <> Beyond).
Proof.
  split.
  - intros data q q' st D H (S1 & S2 & E3 & E4 & S5 & S6) I1 I2 I5 I6.
    split.
    2:{ rewrite (run_single_pass _ _ _ _ H).
        apply single_pass_not_beyond;
          now apply text_predicate_in_fragment. }
    rewrite !(run_single_pass _ _ _ _ H).
    unfold single_pass, all_blank, query_predicate. rewrite <- E3, <- E4.
    cbn [PyStr.any existsb].
    rewrite <- (truthy_same_letters _ _ (strip_same_letters _ _ S1)),
      <- (truthy_same_letters _ _ (strip_same_letters _ _ S2)),
      <- (truthy_same_letters _ _ (strip_same_letters _ _ S5)),
      <- (truthy_same_letters _ _ (strip_same_letters _ _ S6)).
    destruct (negb _); [reflexivity|].
    same_field title S1. same_field genre S2.
    destruct (year_predicate _) as [p3 e3].
    destruct (rating_predicate _) as [p4 e4].
    same_field actors S5. same_field director S6.
    cbn [fst snd]. destruct (e3 ++ e4); [| reflexivity].
    f_equal. f_equal. apply filter_ext. intros m. congruence.
  - intros col col' pat I F. unfold str_contains.
    assert (N : PyRe.compile pat <> PyRe.Unmodelled).
    { unfold in_fragment in I. rewrite negb_true_iff in I.
      unfold PyRe.compile. rewrite I. apply parse_not_unmodelled. }
    destruct (PyRe.compile pat) as [r| |];
      [| split; [reflexivity | discriminate] | contradiction].
    split; [| discriminate].
    f_equal. induction F as [|a b l l' E F IH]; cbn; [reflexivity|].
    rewrite IH. f_equal.
    destruct a as [x|], b as [y|]; cbn in E; try contradiction;
      [| reflexivity].
    apply search_same; [apply same_pattern_refl | assumption].
Qed.

Lemma letter_case_ignored_witness :
  run 0%nat (mkQuery "INCEPTION" "" "" "" "" "(nolan|x)") [[inception]]
  = run 0%nat (mkQuery "inception" "" "" "" "" "(NoLaN|X)") [[inception]]
  /\ run 0%nat (mkQuery "INCEPTION" "" "" "" "" "(nolan|x)") [[inception]]
     <> Beyond.
Proof.
  apply (proj1 letter_case_ignored 0%nat _ _ [[inception]] [inception]
               eq_refl); try reflexivity.
  repeat split.
Defined.

(** ** A table without rows *)

(** X2: On a table without rows no search shows a table; a query that is not
    blank, whose text fields compile and whose numeric fields are accepted
    gets the message that nothing was found. *)
Theorem empty_table_no_results data q st :
  nth_error st data = Some [] ->
  (forall rows, run data q st <> Val (ResultTable rows))
  /\ (forall p, all_blank q = false -> query_predicate q = Val (p, []) ->
        run data q st = Val (search_error [msg_no_results])).
Proof.
  intros H. split.
  - intros rows R.
    destruct (outcome_kinds data q st [] _ H R)
      as [_ [[_ K] | [[_ K] | [(_ & ys & rs & K & _) | (_ & r & K & N & S)]]]];
      try discriminate K.
    apply subseq_nil_inv in S. contradiction.
  - intros p B Q. apply (no_results_iff data q st [] H). split; [exact B|].
    exists p. split; [exact Q | reflexivity].
Qed.

Lemma empty_table_no_results_witness :
  run 0%nat year_2010_rating_8 [[]] <> Val (ResultTable [inception]).
Proof.
  exact (proj1 (empty_table_no_results 0%nat year_2010_rating_8 [[]]
                  eq_refl) [inception]).
Defined.
